(** * Travel Assistant API: a shallow embedding of [src/main.py]

    The program is a FastAPI application with two routes,
    [POST /create-payment-intent] and [POST /query], a process-wide
    Google Maps MCP server started by the [lifespan] context manager, and
    three agent factories whose only computation is the splicing of the
    conversation context into an instruction string.

    Everything the program obtains from a library (the Stripe SDK, the agent
    runner, the MCP server process) enters the development as a value of a
    record of external behaviours; the Python of [main.py] itself is
    translated definition by definition.  Calls to [logger] write to the
    process log, return [None] and decide nothing; they are left out. *)

From Stdlib Require Import ZArith Ascii String List Floats Uint63 Lia.
From stdpp Require Import base strings list gmap.

Set Warnings "-register-all".

Open Scope Z_scope.

(** ** Python values, exceptions and results *)

(** Instances of [Exception] the handlers can observe.  [stripe.error.StripeError]
    is kept apart because [create_payment_intent] has a clause of its own for
    it; every other subclass of [Exception] carries its class name.  Both
    carry the text that [str(e)] renders.  [BaseException]s that are not
    [Exception]s (interpreter exit, task cancellation) end the task and are
    outside the model. *)
Inductive exn : Type :=
| StripeError (msg : string)
| PyException (cls : string) (msg : string).

(** [str(e)] *)
Definition str (e : exn) : string :=
  match e with
  | StripeError msg => msg
  | PyException _ msg => msg
  end.

(** A Python expression either raises or evaluates to a value. *)
Definition result (A : Type) : Type := exn + A.

Definition raise {A : Type} (e : exn) : result A := inl e.

Definition bind {A B : Type} (c : result A) (k : A -> result B) : result B :=
  match c with
  | inl e => inl e
  | inr a => k a
  end.

Declare Scope py_scope.
Delimit Scope py_scope with py.
Notation "'do' x <- c ; k" := (bind c (fun x => k))
  (at level 10, x name, c at level 100, k at level 200) : py_scope.

(** [int(x)] on a [float]: truncation toward zero, [ValueError] on NaN and
    [OverflowError] on an infinity.  A finite binary64 value is
    [(-1)^s * m * 2^e]; shifting the mantissa by [e] (to the right when [e] is
    negative) drops exactly the fractional bits. *)
Definition python_int (x : float) : result Z :=
  match Prim2SF x with
  | S754_nan => raise (PyException "ValueError" "cannot convert float NaN to integer")
  | S754_infinity _ =>
      raise (PyException "OverflowError" "cannot convert float infinity to integer")
  | S754_zero _ => inr 0
  | S754_finite s m e =>
      let magnitude := Z.shiftl (Z.pos m) e in
      inr (if s then - magnitude else magnitude)
  end.

(** ** What a FastAPI route makes of a handler *)

(** A handler returns a model instance or raises [HTTPException]. *)
Inductive outcome (A : Type) : Type :=
| Returns (a : A)
| HTTPException (status_code : Z) (detail : string).
Arguments Returns {A} a.
Arguments HTTPException {A} status_code detail.

(** The body the client receives: the serialised response model, the
    [detail] of an [HTTPException], or the error list FastAPI writes when the
    request body does not validate against the handler's parameter model. *)
Inductive body (A : Type) : Type :=
| Json (a : A)
| Detail (detail : string)
| ValidationErrors.
Arguments Json {A} a.
Arguments Detail {A} detail.
Arguments ValidationErrors {A}.

Record http_response (A : Type) : Type := mk_http_response {
  status : Z;
  content : body A
}.
Arguments mk_http_response {A} status content.
Arguments status {A} h.
Arguments content {A} h.

Definition respond {A : Type} (o : outcome A) : http_response A :=
  match o with
  | Returns a => mk_http_response 200 (Json a)
  | HTTPException code detail => mk_http_response code (Detail detail)
  end.

(** ** Process-wide values *)

(** The handle of the Google Maps MCP server, [MCPServerStdio(name=..., params=...)]. *)
Record MCPServerStdio : Type := {
  server_name : string;
  command : string;
  args : list string;
  env : list (string * option string)
}.

(** A tool of an agent: a function tool of the Stripe toolkit, named, or an
    agent wrapped by [as_tool]; and
    [Agent(name=..., model=..., instructions=..., mcp_servers=..., tools=...)]. *)
Inductive Agent : Type :=
| mk_Agent (name : string) (model : string) (instructions : string)
           (mcp_servers : list (option MCPServerStdio)) (tools : list Tool)
with Tool : Type :=
| FunctionTool (name : string)
| AgentTool (agent : Agent) (tool_name : string) (tool_description : string).

(** ** [POST /create-payment-intent] *)

Module Payment.

(** [class PaymentRequest(BaseModel)] *)
Record PaymentRequest : Type := {
  amount : float;
  currency : string;
  description : string;
  payment_method : string
}.

(** [class PaymentResponse(BaseModel)] *)
Record PaymentResponse : Type := {
  success : bool;
  payment_id : option string;
  error : option string
}.

(** The keyword arguments of [stripe.PaymentIntent.create]. *)
Record PaymentIntentParams : Type := {
  pi_amount : Z;
  pi_currency : string;
  pi_payment_method : string;
  pi_description : string;
  pi_confirm : bool;
  pi_return_url : string
}.

(** The object the SDK returns; [id] is a [str] in the SDK's own typing. *)
Record PaymentIntent : Type := { id : string }.

(** [stripe.PaymentIntent.create], which reads the module global
    [stripe.api_key] besides its arguments. *)
Definition stripe_sdk : Type :=
  option string -> PaymentIntentParams -> result PaymentIntent.

(** The arguments the handler builds, lines 114-121.  [request.amount * 100]
    is a binary64 product; [int] may raise. *)
Definition payment_intent_params (request : PaymentRequest) : result PaymentIntentParams :=
  (do cents <- python_int (PrimFloat.mul (amount request) 100);
   inr {| pi_amount := cents;
          pi_currency := currency request;
          pi_payment_method := payment_method request;
          pi_description := description request;
          pi_confirm := true;
          pi_return_url := "https://your-domain.com/payment-success" |})%py.

Section Handler.

Variable PaymentIntent_create : stripe_sdk.
Variable api_key : option string.

(** The [try] block, lines 113-126. *)
Definition try_create (request : PaymentRequest) : result PaymentResponse :=
  (do params <- payment_intent_params request;
   do intent <- PaymentIntent_create api_key params;
   inr {| success := true; payment_id := Some (id intent); error := None |})%py.

(** The handler with its two [except] clauses, lines 127-138. *)
Definition create_payment_intent (request : PaymentRequest) : outcome PaymentResponse :=
  match try_create request with
  | inr response => Returns response
  | inl (StripeError _ as e) =>
      Returns {| success := false; payment_id := None; error := Some (str e) |}
  | inl e =>
      Returns {| success := false; payment_id := None; error := Some (str e) |}
  end.

(** The route: [@app.post("/create-payment-intent", response_model=PaymentResponse)]
    applied to a body that validated as [PaymentRequest]. *)
Definition post_create_payment_intent (request : PaymentRequest) : http_response PaymentResponse :=
  respond (create_payment_intent request).

End Handler.

(** The response of the [except] clauses. *)
Definition failure_response (e : exn) : PaymentResponse :=
  {| success := false; payment_id := None; error := Some (str e) |}.

(** The JSON number [c/100] as Python reads it: the binary64 value nearest
    to the decimal, which the correctly rounded quotient of two exactly
    representable integers is. *)
Definition decimal_amount (c : Z) : float :=
  PrimFloat.div (PrimFloat.of_uint63 (Uint63.of_Z c)) (PrimFloat.of_uint63 100%uint63).

(** The amount [19.99]. *)
Definition amount_19_99 : float := decimal_amount 1999.

Definition request_19_99 : PaymentRequest :=
  {| amount := amount_19_99; currency := "mxn";
     description := "Vuelo a Paris"; payment_method := "pm_card_visa" |}.

(** [True] when an amount of [c] hundredths is submitted as [c] minor units. *)
Definition submits_cents (c : Z) : bool :=
  match payment_intent_params
          {| amount := decimal_amount c; currency := "mxn";
             description := EmptyString; payment_method := EmptyString |} with
  | inr params => Z.eqb (pi_amount params) c
  | inl _ => false
  end.

(** An SDK that declines every card. *)
Definition declining_sdk : stripe_sdk :=
  fun _ _ => raise (StripeError "Your card was declined.").

(** An SDK that accepts every call when a key is set and raises the SDK's
    authentication error when [stripe.api_key] is [None]. *)
Definition keyed_sdk : stripe_sdk :=
  fun key _ =>
    match key with
    | Some _ => inr {| id := "pi_1" |}
    | None => raise (StripeError "No API key provided.")
    end.

Definition request_10 : PaymentRequest :=
  {| amount := 10%float; currency := "mxn";
     description := "Hotel en Roma"; payment_method := "pm_card_visa" |}.

(** The amount the handler submits for a request, when [int] does not raise. *)
Definition submitted_amount (request : PaymentRequest) : option Z :=
  match payment_intent_params request with
  | inr params => Some (pi_amount params)
  | inl _ => None
  end.

(** A request for [c] hundredths of a unit. *)
Definition request_of_cents (c : Z) : PaymentRequest :=
  {| amount := decimal_amount c; currency := "mxn";
     description := "Paquete completo a Roma"; payment_method := "pm_card_visa" |}.

(** The submitted amount is [c] or one less. *)
Definition within_one_unit (c : Z) : bool :=
  match submitted_amount (request_of_cents c) with
  | Some n => Z.eqb n c || Z.eqb n (c - 1)
  | None => false
  end.

(** The submitted amount is [c]. *)
Definition exact_units (c : Z) : bool :=
  match submitted_amount (request_of_cents c) with
  | Some n => Z.eqb n c
  | None => false
  end.

(** [check from], [check (from + 1)], ... for [n] numbers. *)
Fixpoint all_from (n : nat) (from : Z) (check : Z -> bool) : bool :=
  match n with
  | O => true
  | S k => check from && all_from k (from + 1) check
  end.

(** A finite amount whose product with 100 is not: [2^1020]. *)
Definition request_overflow : PaymentRequest :=
  {| amount := 0x1p+1020%float; currency := "mxn";
     description := "Vuelo a Tokio"; payment_method := "pm_card_visa" |}.

(** An SDK that accepts every call. *)
Definition accepting_sdk : stripe_sdk :=
  fun _ _ => inr {| id := "pi_42" |}.

End Payment.

(** ** [POST /query] *)

Module Query.

Definition newline : string := String (ascii_of_nat 10) EmptyString.

(** [class ConversationMessage(BaseModel)] *)
Record ConversationMessage : Type := {
  role : string;
  content : string
}.

(** [class ChatQuery(BaseModel)] *)
Record ChatQuery : Type := {
  query : string;
  history : list ConversationMessage;
  conversation_id : option string
}.

(** [class Response(BaseModel)]; its third field is [conversation_id] in the
    source. *)
Record Response : Type := {
  response : string;
  trace_id : string;
  Response_conversation_id : option string
}.

(** *** The request body and its validation

    FastAPI parses the body as JSON and validates it against [ChatQuery]
    before the handler is entered; a body that does not validate is answered
    with status 422 and the handler never runs. *)
Inductive json : Type :=
| JNull
| JBool (b : bool)
| JNumber (x : float)
| JString (s : string)
| JArray (items : list json)
| JObject (members : list (string * json)).

(** The value of a key of a JSON object; of two equal keys the later wins. *)
Fixpoint member (key : string) (members : list (string * json)) : option json :=
  match members with
  | [] => None
  | (k, v) :: rest =>
      match member key rest with
      | Some later => Some later
      | None => if String.eqb k key then Some v else None
      end
  end.

(** A [str] field takes a JSON string and nothing else. *)
Definition validate_str (j : json) : option string :=
  match j with
  | JString s => Some s
  | _ => None
  end.

(** A required [str] field, [Field(...)]. *)
Definition required_str (key : string) (members : list (string * json)) : option string :=
  match member key members with
  | Some j => validate_str j
  | None => None
  end.

Definition validate_ConversationMessage (j : json) : option ConversationMessage :=
  match j with
  | JObject members =>
      match required_str "role" members, required_str "content" members with
      | Some r, Some c => Some {| role := r; content := c |}
      | _, _ => None
      end
  | _ => None
  end.

Fixpoint validate_messages (items : list json) : option (list ConversationMessage) :=
  match items with
  | [] => Some []
  | j :: rest =>
      match validate_ConversationMessage j, validate_messages rest with
      | Some m, Some ms => Some (m :: ms)
      | _, _ => None
      end
  end.

(** [history: List[ConversationMessage] = Field(default_factory=list)] *)
Definition validate_history (members : list (string * json)) : option (list ConversationMessage) :=
  match member "history" members with
  | None => Some []
  | Some (JArray items) => validate_messages items
  | Some _ => None
  end.

(** [conversation_id: Optional[str] = Field(default=None)] *)
Definition validate_conversation_id (members : list (string * json)) : option (option string) :=
  match member "conversation_id" members with
  | None => Some None
  | Some JNull => Some None
  | Some (JString s) => Some (Some s)
  | Some _ => None
  end.

Definition validate_ChatQuery (j : json) : option ChatQuery :=
  match j with
  | JObject members =>
      match required_str "query" members,
            validate_history members,
            validate_conversation_id members with
      | Some q, Some h, Some c =>
          Some {| query := q; history := h; conversation_id := c |}
      | _, _, _ => None
      end
  | _ => None
  end.

(** The body a [ChatQuery] is written as: every field present, a missing
    conversation identifier as [null]. *)
Definition ConversationMessage_to_json (msg : ConversationMessage) : json :=
  JObject [("role", JString (role msg)); ("content", JString (content msg))].

Definition ChatQuery_to_json (q : ChatQuery) : json :=
  JObject [("query", JString (query q));
           ("history", JArray (map ConversationMessage_to_json (history q)));
           ("conversation_id", match conversation_id q with
                               | Some s => JString s
                               | None => JNull
                               end)].

(** *** The conversation context, lines 250-255 *)

(** [f"{msg.role}: {msg.content}\n"] *)
Definition format_message (msg : ConversationMessage) : string :=
  role msg +:+ ": " +:+ content msg +:+ newline.

(** The literal ["\nPrevious conversation:\n"]. *)
Definition context_header : string :=
  newline +:+ "Previous conversation:" +:+ newline.

(** The context starts as the empty string; when the history is not empty
    it becomes the header, and the loop makes one [+=] per message. *)
Definition conversation_context (history : list ConversationMessage) : string :=
  match history with
  | [] => EmptyString
  | _ :: _ =>
      fold_left (fun context msg => context +:+ format_message msg)
                history context_header
  end.

(** The lines of a string: [s.split("\n")]. *)
Fixpoint split_lines (s : string) : list string :=
  match s with
  | EmptyString => [EmptyString]
  | String c rest =>
      if Ascii.eqb c (ascii_of_nat 10) then EmptyString :: split_lines rest
      else
        match split_lines rest with
        | [] => [String c EmptyString]
        | line :: lines => String c line :: lines
        end
  end.

(** No line break occurs in the string. *)
Fixpoint single_line (s : string) : bool :=
  match s with
  | EmptyString => true
  | String c rest => negb (Ascii.eqb c (ascii_of_nat 10)) && single_line rest
  end.

(** The reading of the context the specification gives: the header and then
    one [role: content] line per history entry, in order. *)
Definition formatted_lines (history : list ConversationMessage) : list string :=
  map (fun msg => role msg +:+ ": " +:+ content msg) history.

(** The parts joined with nothing between them. *)
Definition join (parts : list string) : string :=
  fold_right String.append EmptyString parts.

(** *** Agents *)

Definition as_tool (agent : Agent) (tool_name tool_description : string) : Tool :=
  AgentTool agent tool_name tool_description.

Definition instructions_of (a : Agent) : string :=
  match a with
  | mk_Agent _ _ instructions _ _ => instructions
  end.

Definition name_of (a : Agent) : string :=
  match a with
  | mk_Agent name _ _ _ _ => name
  end.

(** The text of an f-string on either side of [{conversation_context}]. *)
Record template : Type := {
  before : string;
  after : string
}.

Definition fill (t : template) (context : string) : string :=
  before t +:+ context +:+ after t.

(** The four instruction literals of the source (lines 146-167, 176-201,
    210-241 and 266-304) and the two [tool_description]s (lines 308 and 312). *)
Record prompts : Type := {
  maps_instructions : template;
  payments_instructions : template;
  synthesizer_instructions : template;
  orchestrator_instructions : template;
  get_destination_info_description : string;
  create_travel_products_description : string
}.

(** *** The agent runner *)

(** An item of a run's input list. *)
Inductive InputItem : Type :=
| Item (item_role : string) (item_content : string).

(** A run's [final_output] is typed [Any].  For an agent without
    [output_type], as the four agents of the program are, the runner yields a
    [str]; [bytes], which the [Response] model would decode, are not among
    its outputs.  Any other value is one the model refuses, and is kept with
    the text pydantic renders for the [ValidationError] it raises on it. *)
Inductive PyValue : Type :=
| PyStr (s : string)
| PyRefused (validation_error : string).

(** What [Runner.run] is given as its second argument. *)
Inductive RunInput : Type :=
| InputText (text : string)
| InputList (items : list InputItem).

(** A [RunResult]: the new items as the texts [ItemHelpers.text_message_output]
    reads off the [MessageOutputItem]s among them, the final output, and the
    list [to_input_list()] returns. *)
Record RunResult : Type := {
  new_items : list (option string);
  final_output : PyValue;
  to_input_list : list InputItem
}.

(** The calls the handler makes to the agents library, in the order made. *)
Inductive event : Type :=
| GenTraceId
| TraceEnter (workflow_name : string) (trace_id : string)
| TraceExit
| RunnerRun (agent : Agent) (input : RunInput).

(** The agents library and the process state a request reads.  A call's
    answer may depend on all the calls made before it. *)
Record runtime : Type := {
  gen_trace_id : list event -> result string;
  Runner_run : list event -> Agent -> RunInput -> result RunResult;
  stripe_tools : list Tool;
  _maps_server : option MCPServerStdio
}.

(** A computation that calls the library: the calls so far go in, the
    result and the calls made come out. *)
Definition io (A : Type) : Type := list event -> result A * list event.

Definition io_ret {A : Type} (r : result A) : io A := fun calls => (r, calls).

Definition io_bind {A B : Type} (c : io A) (k : A -> io B) : io B :=
  fun calls =>
    match c calls with
    | (inl e, calls') => (inl e, calls')
    | (inr a, calls') => k a calls'
    end.

Declare Scope io_scope.
Delimit Scope io_scope with io.
Notation "'do' x <- c ; k" := (io_bind c (fun x => k))
  (at level 10, x name, c at level 100, k at level 200) : io_scope.

Section Handler.

Variable P : prompts.
Variable rt : runtime.

(** [create_maps_agent], lines 141-169 *)
Definition create_maps_agent (context : string) : Agent :=
  mk_Agent "Maps Specialist" "gpt-4o-mini"
           (fill (maps_instructions P) context)
           [_maps_server rt] [].

(** [create_payments_agent], lines 171-203 *)
Definition create_payments_agent (context : string) : Agent :=
  mk_Agent "Travel Payments Specialist" "gpt-4o-mini"
           (fill (payments_instructions P) context)
           [] (stripe_tools rt).

(** [create_synthesizer_agent], lines 205-242 *)
Definition create_synthesizer_agent (context : string) : Agent :=
  mk_Agent "Travel Experience Synthesizer" "gpt-4o-mini"
           (fill (synthesizer_instructions P) context)
           [] [].

(** The orchestrator of lines 263-315, with the two specialists as tools. *)
Definition create_orchestrator_agent (context : string) (maps_agent payments_agent : Agent) : Agent :=
  mk_Agent "Travel Orchestrator" "gpt-4o-mini"
           (fill (orchestrator_instructions P) context)
           []
           [as_tool maps_agent "get_destination_info" (get_destination_info_description P);
            as_tool payments_agent "create_travel_products" (create_travel_products_description P)].

(** [gen_trace_id()] *)
Definition call_gen_trace_id : io string :=
  fun calls => (gen_trace_id rt calls, calls ++ [GenTraceId]).

(** [await Runner.run(agent, input)] *)
Definition call_Runner_run (agent : Agent) (input : RunInput) : io RunResult :=
  fun calls => (Runner_run rt calls agent input, calls ++ [RunnerRun agent input]).

(** [with trace(workflow_name=..., trace_id=...):]; the trace is left on
    every path out of the block. *)
Definition with_trace {A : Type} (workflow_name tid : string) (block : io A) : io A :=
  fun calls =>
    let (r, calls') := block (calls ++ [TraceEnter workflow_name tid]) in
    (r, calls' ++ [TraceExit]).

(** [Response(response=..., trace_id=..., conversation_id=...)]: the model
    validates [response] as a [str] and raises pydantic's [ValidationError]
    on a value it refuses. *)
Definition Response_new (output : PyValue) (tid : string) (cid : option string) : result Response :=
  match output with
  | PyStr s => inr {| response := s; trace_id := tid; Response_conversation_id := cid |}
  | PyRefused message => raise (PyException "ValidationError" message)
  end.

(** The [try] block, lines 247-344. *)
Definition try_process_query (q : ChatQuery) : io Response :=
  let context := conversation_context (history q) in
  let maps_agent := create_maps_agent context in
  let payments_agent := create_payments_agent context in
  let synthesizer_agent := create_synthesizer_agent context in
  let orchestrator_agent := create_orchestrator_agent context maps_agent payments_agent in
  (do tid <- call_gen_trace_id;
   do synthesizer_result <-
     with_trace "Travel Assistant API" tid
       (do orchestrator_result <- call_Runner_run orchestrator_agent (InputText (query q));
        call_Runner_run synthesizer_agent (InputList (to_input_list orchestrator_result)));
   io_ret (Response_new (final_output synthesizer_result) tid (conversation_id q)))%io.

(** The two agents the handler runs, as the [try] block builds them. *)
Definition orchestrator_for (q : ChatQuery) : Agent :=
  let context := conversation_context (history q) in
  create_orchestrator_agent context (create_maps_agent context) (create_payments_agent context).

Definition synthesizer_for (q : ChatQuery) : Agent :=
  create_synthesizer_agent (conversation_context (history q)).

(** The calls made when the orchestrator is run, when the synthesizer is
    run, and when the block is left after both. *)
Definition calls_at_orchestrator (calls : list event) (tid : string) : list event :=
  calls ++ [GenTraceId; TraceEnter "Travel Assistant API" tid].

Definition calls_at_synthesizer (calls : list event) (tid : string) (q : ChatQuery) : list event :=
  calls_at_orchestrator calls tid ++ [RunnerRun (orchestrator_for q) (InputText (query q))].

Definition calls_of_request (calls : list event) (tid : string) (q : ChatQuery)
           (orchestrator_result : RunResult) : list event :=
  calls_at_synthesizer calls tid q
  ++ [RunnerRun (synthesizer_for q) (InputList (to_input_list orchestrator_result)); TraceExit].

(** The handler: the [try] block and its [except Exception] clause,
    lines 345-347. *)
Definition process_query (q : ChatQuery) (calls : list event) : outcome Response * list event :=
  match try_process_query q calls with
  | (inr r, calls') => (Returns r, calls')
  | (inl e, calls') => (HTTPException 500 (str e), calls')
  end.

(** The route [@app.post("/query", response_model=Response)] on a raw body. *)
Definition post_query (raw : json) (calls : list event) : http_response Response * list event :=
  match validate_ChatQuery raw with
  | None => (mk_http_response 422 ValidationErrors, calls)
  | Some q =>
      let (o, calls') := process_query q calls in
      (respond o, calls')
  end.

End Handler.

(** The calls to [Runner.run] among the calls made. *)
Definition runs (calls : list event) : list (Agent * RunInput) :=
  flat_map (fun ev => match ev with
                      | RunnerRun agent input => [(agent, input)]
                      | _ => []
                      end) calls.

(** The numbers of calls of each kind among the calls made. *)
Definition count_events (kind : event -> bool) (calls : list event) : nat :=
  length (filter (fun ev => kind ev = true) calls).

Definition is_GenTraceId (ev : event) : bool :=
  match ev with GenTraceId => true | _ => false end.

Definition is_TraceEnter (ev : event) : bool :=
  match ev with TraceEnter _ _ => true | _ => false end.

Definition is_TraceExit (ev : event) : bool :=
  match ev with TraceExit => true | _ => false end.

Definition is_RunnerRun (ev : event) : bool :=
  match ev with RunnerRun _ _ => true | _ => false end.

End Query.

(** ** Start-up: the module level and [lifespan] *)

Module Lifespan.

(** [os.getenv(name)]: [None] when the variable is not set. *)
Definition getenv (environ : gmap string string) (name : string) : option string :=
  environ !! name.

(** The [configuration] literal of lines 28-34. *)
Definition configuration : list (string * list (string * list (string * bool))) :=
  [("actions", [("payment_links", [("create", true)]);
                ("products", [("create", true)]);
                ("prices", [("create", true)])])].

(** The library calls of start-up and shut-down: the toolkit constructor
    (its tools are what [get_tools()] returns later), the text pydantic
    renders when the server's parameters are refused, and the MCP server's
    [connect] and [disconnect]. *)
Record externals : Type := {
  StripeAgentToolkit :
    option string -> list (string * list (string * list (string * bool))) -> result (list Tool);
  params_error : list (string * option string) -> string;
  connect : MCPServerStdio -> result unit;
  disconnect : MCPServerStdio -> result unit
}.

(** The module globals: [stripe.api_key], [stripe_agent_toolkit] and
    [_maps_server]. *)
Record process : Type := {
  stripe_api_key : option string;
  stripe_agent_toolkit : list Tool;
  maps_server : option MCPServerStdio
}.

(** The arguments of [MCPServerStdio(...)] as lines 49-58 write them; the
    value of the key is what [os.getenv] gives. *)
Definition maps_server_arguments (environ : gmap string string) : MCPServerStdio :=
  {| server_name := "Google Maps Server";
     command := "npx";
     args := ["-y"; "@modelcontextprotocol/server-google-maps"];
     env := [("GOOGLE_MAPS_API_KEY", getenv environ "GOOGLE_MAPS_API_KEY")] |}.

(** The constructor validates its parameters: [env] maps strings to
    strings, and a [None] among the values is refused. *)
Definition env_valid (entries : list (string * option string)) : bool :=
  forallb (fun entry => match snd entry with
                        | Some _ => true
                        | None => false
                        end) entries.

(** A coroutine that called [lifespan] is at one of these points. *)
Inductive pc : Type :=
| AtLock       (* line 46, before [async with _server_lock] *)
| AtCheck      (* line 47, holding the lock *)
| AtConnect    (* line 59, holding the lock, [_maps_server] assigned *)
| Serving      (* line 65, at [yield] *)
| Finished     (* after line 73 *)
| Failed (e : exn).  (* line 63 *)

(** The globals, the lock's holder, the coroutines, and counters of the
    calls of the [MCPServerStdio] constructor, of the assignments of
    [_maps_server] and of the calls of [connect]. *)
Record state : Type := {
  server : option MCPServerStdio;
  lock : option nat;
  coroutines : list pc;
  attempts : nat;
  constructed : nat;
  connects : nat
}.

Definition initial (n : nat) : state :=
  {| server := None; lock := None; coroutines := replicate n AtLock;
     attempts := 0; constructed := 0; connects := 0 |}.

(** Coroutine [i] moves to [p]. *)
Definition goto (i : nat) (p : pc) (s : state) : list pc := <[i := p]> (coroutines s).

(** Inside the critical section. *)
Definition critical (p : pc) : bool :=
  match p with
  | AtCheck | AtConnect => true
  | _ => false
  end.

(** Past the critical section: serving, shut down, or failed. *)
Definition started (p : pc) : bool :=
  match p with
  | Serving | Finished | Failed _ => true
  | _ => false
  end.

Definition is_failed (p : pc) : bool :=
  match p with
  | Failed _ => true
  | _ => false
  end.

(** The number of coroutines that failed. *)
Fixpoint count_failed (l : list pc) : nat :=
  match l with
  | [] => 0
  | p :: rest => ((if is_failed p then 1 else 0) + count_failed rest)%nat
  end.

Section Boot.

Variable ext : externals.
Variable environ : gmap string string.

(** [MCPServerStdio(name=..., params=...)], line 49: the server object, or
    the [ValidationError] of a refused parameter. *)
Definition MCPServerStdio_new (arguments : MCPServerStdio) : result MCPServerStdio :=
  if env_valid (env arguments) then inr arguments
  else raise (PyException "ValidationError" (params_error ext (env arguments))).

(** The construction of lines 49-58. *)
Definition new_maps_server : result MCPServerStdio :=
  MCPServerStdio_new (maps_server_arguments environ).

(** Lines 22-39, run when the module is imported. *)
Definition import_main : result process :=
  let key := getenv environ "STRIPE_SECRET_KEY" in
  (do tools <- StripeAgentToolkit ext key configuration;
   inr {| stripe_api_key := key; stripe_agent_toolkit := tools; maps_server := None |})%py.

(** The start-up half of [lifespan], lines 44-63, for one caller: what it
    raises or not, and the globals it leaves.  When the constructor raises,
    nothing is assigned; otherwise [_maps_server] is assigned before
    [connect] is awaited.  The [except] clause re-raises. *)
Definition startup (p : process) : result unit * process :=
  match maps_server p with
  | None =>
      match new_maps_server with
      | inl e => (inl e, p)
      | inr srv =>
          (connect ext srv,
           {| stripe_api_key := stripe_api_key p;
              stripe_agent_toolkit := stripe_agent_toolkit p;
              maps_server := Some srv |})
      end
  | Some _ => (inr tt, p)
  end.

(** The shut-down half, lines 67-73; an exception of [disconnect] is logged
    and dropped, and [_maps_server] keeps its value. *)
Definition shutdown (p : process) : process :=
  match maps_server p with
  | Some srv =>
      match disconnect ext srv with
      | inr _ => p
      | inl _ => p
      end
  | None => p
  end.

(** Import, then start-up: the process serves requests when neither raises. *)
Definition boot : result process :=
  (do p <- import_main;
   let (r, p') := startup p in
   do _ <- r;
   inr p')%py.

(** One move of coroutine [i]; a coroutine that waits for the lock, or has
    finished, leaves the state as it is.  Leaving the [async with] block,
    by the end of the block or by an exception, frees the lock. *)
Definition step (i : nat) (s : state) : state :=
  match coroutines s !! i with
  | Some AtLock =>
      match lock s with
      | None =>
          {| server := server s; lock := Some i; coroutines := goto i AtCheck s;
             attempts := attempts s; constructed := constructed s; connects := connects s |}
      | Some _ => s
      end
  | Some AtCheck =>
      match server s with
      | None =>
          match new_maps_server with
          | inr srv =>
              {| server := Some srv; lock := lock s;
                 coroutines := goto i AtConnect s;
                 attempts := S (attempts s);
                 constructed := S (constructed s); connects := connects s |}
          | inl e =>
              {| server := None; lock := None;
                 coroutines := goto i (Failed e) s;
                 attempts := S (attempts s);
                 constructed := constructed s; connects := connects s |}
          end
      | Some _ =>
          {| server := server s; lock := None; coroutines := goto i Serving s;
             attempts := attempts s; constructed := constructed s; connects := connects s |}
      end
  | Some AtConnect =>
      let r := match server s with
               | Some srv => connect ext srv
               | None => raise (PyException "AttributeError"
                                  "'NoneType' object has no attribute 'connect'")
               end in
      {| server := server s; lock := None;
         coroutines := goto i (match r with inr _ => Serving | inl e => Failed e end) s;
         attempts := attempts s; constructed := constructed s; connects := S (connects s) |}
  | Some Serving =>
      {| server := server s; lock := lock s; coroutines := goto i Finished s;
         attempts := attempts s; constructed := constructed s; connects := connects s |}
  | Some Finished | Some (Failed _) | None => s
  end.

(** The state after the moves of a schedule, a list of coroutine numbers. *)
Definition run (schedule : list nat) (s : state) : state :=
  fold_left (fun s i => step i s) schedule s.

(** What every reachable state satisfies.  The lock is held exactly by a
    coroutine in the critical section; the handle, once set, is the server
    the constructor gave; the counters tell whether the handle is set and
    whether [connect] was called; a coroutine that serves has seen both; a
    coroutine that failed did so in the constructor or in [connect]. *)
Record invariant (s : state) : Prop := {
  inv_holder : forall i p, coroutines s !! i = Some p -> critical p = true -> lock s = Some i;
  inv_held : forall i, lock s = Some i ->
                       exists p, coroutines s !! i = Some p /\ critical p = true;
  inv_server : forall srv, server s = Some srv -> new_maps_server = inr srv;
  inv_count : constructed s = match server s with Some _ => 1%nat | None => 0%nat end;
  inv_connects : (connects s <= constructed s)%nat;
  inv_at_connect : forall i, coroutines s !! i = Some AtConnect ->
                             connects s = 0%nat /\ constructed s = 1%nat;
  inv_connected : constructed s = 1%nat -> connects s = 0%nat ->
                  exists i, coroutines s !! i = Some AtConnect;
  inv_serving : forall i p, coroutines s !! i = Some p -> p = Serving \/ p = Finished ->
                            constructed s = 1%nat /\ connects s = 1%nat;
  inv_failed : forall i e, coroutines s !! i = Some (Failed e) ->
                           new_maps_server = inl e \/
                           exists srv, server s = Some srv /\ connect ext srv = inl e /\
                                       connects s = 1%nat;
  inv_one_failure : forall srv, new_maps_server = inr srv ->
                    forall i j e e', coroutines s !! i = Some (Failed e) ->
                                     coroutines s !! j = Some (Failed e') -> i = j;
  inv_attempts : forall srv, new_maps_server = inr srv -> attempts s = constructed s;
  inv_attempts_failed : forall e, new_maps_server = inl e ->
                                  attempts s = count_failed (coroutines s)
}.

End Boot.

(** Library calls that never raise: a toolkit that takes whatever key it is
    given, and a server that connects and disconnects. *)
Definition lenient : externals :=
  {| StripeAgentToolkit := fun _ _ => inr [FunctionTool "create_payment_link";
                                           FunctionTool "create_product";
                                           FunctionTool "create_price"];
     params_error := fun _ => "1 validation error for StdioServerParameters";
     connect := fun _ => inr tt;
     disconnect := fun _ => inr tt |}.

(** A server that cannot be started. *)
Definition failing : externals :=
  {| StripeAgentToolkit := fun _ _ => inr [];
     params_error := fun _ => "1 validation error for StdioServerParameters";
     connect := fun _ => raise (PyException "McpError" "Connection closed");
     disconnect := fun _ => raise (PyException "McpError" "Connection closed") |}.

(** Three start-ups racing: the second takes the lock first, the others
    wait for it in turn. *)
Definition racing_schedule : list nat :=
  [1; 0; 2; 1; 0; 1; 2; 0; 2; 0; 0]%nat.

(** An environment that sets the maps key and no payment key. *)
Definition maps_key_only : gmap string string :=
  {[ "GOOGLE_MAPS_API_KEY" := "AIza-maps" ]}.

(** An environment that sets the payment key and no maps key. *)
Definition payment_key_only : gmap string string :=
  {[ "STRIPE_SECRET_KEY" := "sk_test_123" ]}.

(** The server of [maps_key_only]. *)
Definition sample_server : MCPServerStdio :=
  {| server_name := "Google Maps Server";
     command := "npx";
     args := ["-y"; "@modelcontextprotocol/server-google-maps"];
     env := [("GOOGLE_MAPS_API_KEY", Some "AIza-maps")] |}.

(** The exception of the constructor without the maps key, with the
    stand-in text of [lenient] and [failing]. *)
Definition sample_refusal : exn :=
  PyException "ValidationError" "1 validation error for StdioServerParameters".

(** Two start-ups, one after the other, without the maps key. *)
Definition unkeyed_race : state :=
  run lenient payment_key_only [0; 0; 1; 1]%nat (initial 2).

(** The globals right after the import, with no maps server yet. *)
Definition imported (key : option string) : process :=
  {| stripe_api_key := key; stripe_agent_toolkit := []; maps_server := None |}.

End Lifespan.

(** ** Concrete requests and library behaviours *)

Module Samples.

Import Query.

(** Short stand-ins for the instruction literals. *)
Definition sample_prompts : prompts :=
  {| maps_instructions := {| before := "You are a travel destination specialist. ";
                             after := " For each place include the address." |};
     payments_instructions := {| before := "You are a travel booking and payments specialist. ";
                                 after := " Create three Stripe products." |};
     synthesizer_instructions := {| before := "You are a travel experience synthesizer. ";
                                    after := " Combine the specialists' results." |};
     orchestrator_instructions := {| before := "You are an intelligent travel assistant orchestrator. ";
                                     after := " Pass all results to the synthesizer." |};
     get_destination_info_description := "Get detailed information about travel destinations.";
     create_travel_products_description := "Create travel products and payment links." |}.

Definition orchestrator_output : RunResult :=
  {| new_items := [Some "Calling create_travel_products for Roma"];
     final_output := PyStr "Roma: flight, hotel and package created";
     to_input_list := [Item "user" "quiero reservar un viaje a Roma";
                       Item "assistant" "Roma: flight, hotel and package created"] |}.

Definition synthesizer_output : RunResult :=
  {| new_items := [Some "Paquete Completo a Roma"];
     final_output := PyStr "Paquete Completo a Roma";
     to_input_list := [] |}.

(** A runner that answers a text input as the orchestrator and an input
    list as the synthesizer. *)
Definition scripted : runtime :=
  {| gen_trace_id := fun _ => inr "trace_0001";
     Runner_run := fun _ _ input =>
                     match input with
                     | InputText _ => inr orchestrator_output
                     | InputList _ => inr synthesizer_output
                     end;
     stripe_tools := [FunctionTool "create_payment_link"];
     _maps_server := None |}.

(** A runner whose model provider cannot be reached. *)
Definition unreachable : runtime :=
  {| gen_trace_id := fun _ => inr "trace_0002";
     Runner_run := fun _ _ _ => raise (PyException "APIConnectionError" "Connection error.");
     stripe_tools := [];
     _maps_server := None |}.

Definition roma_query : ChatQuery :=
  {| query := "quiero reservar un viaje a Roma";
     history := [];
     conversation_id := Some "conv-7" |}.

(** The body of the Roma request. *)
Definition roma_body : json :=
  JObject [("query", JString "quiero reservar un viaje a Roma");
           ("conversation_id", JString "conv-7")].

(** One message whose content holds a line break, and two messages that
    spell the same text. *)
Definition two_line_message : ConversationMessage :=
  {| role := "user"; content := "hola" +:+ newline +:+ "assistant: adios" |}.

Definition hola : ConversationMessage := {| role := "user"; content := "hola" |}.
Definition adios : ConversationMessage := {| role := "assistant"; content := "adios" |}.

(** The number of lines of a string that hold [": "]. *)
Fixpoint has_colon_space (s : string) : bool :=
  match s with
  | String c1 (String c2 rest as tail) =>
      (Ascii.eqb c1 ":" && Ascii.eqb c2 " ") || has_colon_space tail
  | _ => false
  end.

Definition count_formatted_lines (s : string) : nat :=
  length (filter (fun line => has_colon_space line = true) (split_lines s)).

(** The worked example the payments instructions give for Paris, line
    192-194: the three prices and the discount percentage. *)
Definition paris_flight : Z := 500.
Definition paris_hotel : Z := 600.
Definition paris_package : Z := 990.
Definition paris_discount_percent : Z := 10.

(** A request with two messages of history. *)
Definition follow_up_query : ChatQuery :=
  {| query := "y el hotel?"; history := [hola; adios]; conversation_id := None |}.

(** A body whose second history entry has no [content]. *)
Definition broken_history_body : json :=
  JObject [("query", JString "hola");
           ("history", JArray [JObject [("role", JString "user"); ("content", JString "hola")];
                               JObject [("role", JString "assistant")]])].

(** A runner whose orchestrator answers and whose synthesizer cannot be
    reached. *)
Definition synthesizer_down : runtime :=
  {| gen_trace_id := fun _ => inr "trace_0003";
     Runner_run := fun _ _ input =>
                     match input with
                     | InputText _ => inr orchestrator_output
                     | InputList _ => raise (PyException "APIConnectionError" "Connection error.")
                     end;
     stripe_tools := [];
     _maps_server := None |}.

(** A runner whose synthesizer ends with an output the Response model
    refuses; the text stands for the one pydantic renders. *)
Definition synthesizer_refused : runtime :=
  {| gen_trace_id := fun _ => inr "trace_0004";
     Runner_run := fun _ _ input =>
                     match input with
                     | InputText _ => inr orchestrator_output
                     | InputList _ =>
                         inr {| new_items := [];
                                final_output := PyRefused "1 validation error for Response";
                                to_input_list := [] |}
                     end;
     stripe_tools := [];
     _maps_server := None |}.

End Samples.

(** * Properties *)

(** ** The payment route *)

Section PaymentFacts.

Import Payment.

Variable sdk : stripe_sdk.
Variable key : option string.

(** Both [except] clauses build the same response, so the handler returns
    in every case. *)
Lemma create_payment_intent_returns (request : PaymentRequest) :
  create_payment_intent sdk key request =
  Returns (match try_create sdk key request with
           | inr response => response
           | inl e => failure_response e
           end).
Proof.
  unfold create_payment_intent.
  destruct (try_create sdk key request) as [e | response]; [ | reflexivity ].
  destruct e; reflexivity.
Qed.

(** An exception of the SDK is the exception of the [try] block. *)
Lemma try_create_sdk_raises (request : PaymentRequest) params e :
  payment_intent_params request = inr params ->
  sdk key params = inl e ->
  try_create sdk key request = inl e.
Proof.
  intros Hparams Hsdk. unfold try_create. rewrite Hparams. cbn. rewrite Hsdk. reflexivity.
Qed.

(** A response of the [try] block is a success with an identifier. *)
Lemma try_create_success (request : PaymentRequest) response :
  try_create sdk key request = inr response ->
  success response = true /\ (exists pid, payment_id response = Some pid) /\ error response = None.
Proof.
  unfold try_create.
  destruct (payment_intent_params request) as [e | params]; cbn; [ discriminate | ].
  destruct (sdk key params) as [e | intent]; cbn; [ discriminate | ].
  intros [= <-]. cbn. eauto.
Qed.

End PaymentFacts.

(** C2. A well-formed request to POST /create-payment-intent is answered
    with status 200 and a PaymentResponse; when the provider call raises, the
    answer is still status 200, with success false and the text of the
    exception as the error. *)
Theorem create_payment_intent_status_200 :
  forall (sdk : Payment.stripe_sdk) (key : option string) (request : Payment.PaymentRequest),
    (exists response,
        Payment.post_create_payment_intent sdk key request = mk_http_response 200 (Json response)) /\
    (forall params e,
        Payment.payment_intent_params request = inr params ->
        sdk key params = inl e ->
        Payment.post_create_payment_intent sdk key request =
        mk_http_response 200
          (Json {| Payment.success := false;
                   Payment.payment_id := None;
                   Payment.error := Some (str e) |})).
Proof.
  intros sdk key request. unfold Payment.post_create_payment_intent.
  rewrite create_payment_intent_returns. split.
  - eexists. reflexivity.
  - intros params e Hparams Hsdk.
    rewrite (try_create_sdk_raises sdk key request params e Hparams Hsdk).
    reflexivity.
Qed.

Lemma create_payment_intent_status_200_witness :
  Payment.payment_intent_params Payment.request_10 =
    inr {| Payment.pi_amount := 1000; Payment.pi_currency := "mxn";
           Payment.pi_payment_method := "pm_card_visa";
           Payment.pi_description := "Hotel en Roma";
           Payment.pi_confirm := true;
           Payment.pi_return_url := "https://your-domain.com/payment-success" |} /\
  Payment.post_create_payment_intent Payment.declining_sdk None Payment.request_10 =
    mk_http_response 200
      (Json {| Payment.success := false;
               Payment.payment_id := None;
               Payment.error := Some "Your card was declined." |}).
Proof.
  split.
  - vm_compute. reflexivity.
  - apply (proj2 (create_payment_intent_status_200 Payment.declining_sdk None Payment.request_10)
             {| Payment.pi_amount := 1000; Payment.pi_currency := "mxn";
                Payment.pi_payment_method := "pm_card_visa";
                Payment.pi_description := "Hotel en Roma";
                Payment.pi_confirm := true;
                Payment.pi_return_url := "https://your-domain.com/payment-success" |}
             (StripeError "Your card was declined.")).
    + vm_compute. reflexivity.
    + reflexivity.
Defined.

(** An amount that [int] cannot convert is answered too: the
    [OverflowError] is caught by the second [except] clause. *)
Example infinite_amount_answered :
  Payment.post_create_payment_intent Payment.keyed_sdk (Some "sk_test")
    {| Payment.amount := infinity; Payment.currency := "mxn";
       Payment.description := "Vuelo"; Payment.payment_method := "pm_card_visa" |} =
  mk_http_response 200
    (Json {| Payment.success := false; Payment.payment_id := None;
             Payment.error := Some "cannot convert float infinity to integer" |}).
Proof. vm_compute. reflexivity. Qed.

(** C9. In every response of POST /create-payment-intent the three fields
    agree: success comes with a payment identifier and no error, failure with
    an error and no payment identifier. *)
Theorem payment_response_fields_agree :
  forall (sdk : Payment.stripe_sdk) (key : option string) (request : Payment.PaymentRequest)
         (code : Z) (response : Payment.PaymentResponse),
    Payment.post_create_payment_intent sdk key request = mk_http_response code (Json response) ->
    (Payment.success response = true ->
     (exists pid, Payment.payment_id response = Some pid) /\ Payment.error response = None) /\
    (Payment.success response = false ->
     Payment.payment_id response = None /\ exists msg, Payment.error response = Some msg).
Proof.
  intros sdk key request code response. unfold Payment.post_create_payment_intent.
  rewrite create_payment_intent_returns. cbn. intros [= _ <-].
  destruct (Payment.try_create sdk key request) as [e | ok] eqn:Htry.
  - cbn. split; [ discriminate | ]. intros _. eauto.
  - destruct (try_create_success sdk key request ok Htry) as (Hs & Hp & He).
    split; [ intros _; auto | ]. rewrite Hs. discriminate.
Qed.

Lemma payment_response_fields_agree_witness :
  Payment.post_create_payment_intent Payment.keyed_sdk (Some "sk_test") Payment.request_10 =
    mk_http_response 200
      (Json {| Payment.success := true; Payment.payment_id := Some "pi_1";
               Payment.error := None |}) /\
  ((true = true -> (exists pid, Some "pi_1" = Some pid) /\ @None string = None) /\
   (true = false -> Some "pi_1" = None /\ exists msg, @None string = Some msg)).
Proof.
  split.
  - vm_compute. reflexivity.
  - apply (payment_response_fields_agree Payment.keyed_sdk (Some "sk_test") Payment.request_10 200
             {| Payment.success := true; Payment.payment_id := Some "pi_1";
                Payment.error := None |}).
    vm_compute. reflexivity.
Defined.

(** C3. The amount 19.99 is submitted as 1998 minor units, one less than the
    1999 that a hundred times the amount is: the binary64 product falls just
    below 1999 and [int] truncates it. *)
Theorem amount_19_99_submitted_as_1998 :
  Payment.amount_19_99 = 0x1.3fd70a3d70a3dp+4%float /\
  PrimFloat.mul Payment.amount_19_99 100 = 0x1.f3bffffffffffp+10%float /\
  Payment.payment_intent_params Payment.request_19_99 =
    inr {| Payment.pi_amount := 1998; Payment.pi_currency := "mxn";
           Payment.pi_payment_method := "pm_card_visa";
           Payment.pi_description := "Vuelo a Paris";
           Payment.pi_confirm := true;
           Payment.pi_return_url := "https://your-domain.com/payment-success" |} /\
  Payment.submits_cents 1999 = false.
Proof. repeat split; vm_compute; reflexivity. Qed.

(** Whole amounts up to 999 are submitted exactly. *)
Lemma whole_amounts_exact :
  forallb (fun n => Payment.submits_cents (100 * Z.of_nat n)) (seq 0 1000) = true.
Proof. vm_compute. reflexivity. Qed.

(** Of the amounts 0.00 to 9.99, these are submitted one minor unit short. *)
Lemma amounts_below_10_truncated :
  filter (fun c => Payment.submits_cents c = false) (map Z.of_nat (seq 0 1000)) =
  [29; 57; 58; 113; 114; 115; 116; 201; 203; 205; 207; 226; 228; 230; 232; 251; 253;
   255; 402; 406; 410; 414; 427; 431; 435; 439; 452; 456; 460; 464; 477; 481; 485;
   489; 502; 506; 510; 803; 804; 812; 820; 828; 829; 837; 845; 853; 854; 862; 870; 878;
   879; 887; 895; 903; 904; 912; 920; 928; 929; 937; 945; 953; 954; 962; 970; 978;
   979; 987; 995].
Proof. vm_compute. reflexivity. Qed.

(** ** The conversation context *)

Section ContextFacts.

Import Query.

Lemma append_cons (c : ascii) (a b : string) : String c a +:+ b = String c (a +:+ b).
Proof. reflexivity. Qed.

Lemma append_empty_l (a : string) : EmptyString +:+ a = a.
Proof. reflexivity. Qed.

Lemma append_assoc (a b c : string) : (a +:+ b) +:+ c = a +:+ (b +:+ c).
Proof.
  induction a as [ | ch a IH]; [ reflexivity | ].
  rewrite !append_cons. now rewrite IH.
Qed.

Lemma append_empty_r (a : string) : a +:+ EmptyString = a.
Proof.
  induction a as [ | ch a IH]; [ reflexivity | ].
  rewrite append_cons. now rewrite IH.
Qed.

(** The loop appends the formatted messages to what it starts from. *)
Lemma fold_format (history : list ConversationMessage) (start : string) :
  fold_left (fun context msg => context +:+ format_message msg) history start =
  start +:+ join (map format_message history).
Proof.
  revert start. induction history as [ | msg rest IH]; intros start; cbn [fold_left map join fold_right].
  - now rewrite append_empty_r.
  - rewrite IH. apply append_assoc.
Qed.

(** A text without line break, followed by a line break, is one line. *)
Lemma split_lines_line (line rest : string) :
  single_line line = true ->
  split_lines (line +:+ newline +:+ rest) = line :: split_lines rest.
Proof.
  induction line as [ | c line IH]; intros Hline.
  - reflexivity.
  - cbn [single_line] in Hline. apply andb_prop in Hline as [Hc Hline].
    apply negb_true_iff in Hc.
    rewrite append_cons. cbn [split_lines]. rewrite Hc.
    rewrite (IH Hline). reflexivity.
Qed.

Lemma single_line_append (a b : string) :
  single_line a = true -> single_line b = true -> single_line (a +:+ b) = true.
Proof.
  induction a as [ | c a IH]; intros Ha Hb; [ exact Hb | ].
  cbn [single_line] in Ha. apply andb_prop in Ha as [Hc Ha].
  rewrite append_cons. cbn [single_line]. rewrite Hc. cbn. auto.
Qed.

(** Messages without line breaks make one line each. *)
Lemma split_lines_messages (history : list ConversationMessage) :
  Forall (fun msg => single_line (role msg) = true /\ single_line (content msg) = true) history ->
  split_lines (join (map format_message history)) = formatted_lines history ++ [EmptyString].
Proof.
  induction 1 as [ | msg rest [Hrole Hcontent] _ IH]; [ reflexivity | ].
  cbn [map join fold_right formatted_lines]. unfold format_message at 1.
  rewrite !append_assoc.
  rewrite <- (append_assoc ": " (content msg)).
  rewrite <- (append_assoc (role msg) (": " +:+ content msg)).
  rewrite split_lines_line.
  - fold (join (map format_message rest)). rewrite IH. reflexivity.
  - apply single_line_append; [ exact Hrole | ].
    apply (single_line_append ": " (content msg)); [ reflexivity | exact Hcontent ].
Qed.

End ContextFacts.

(** C4, as the code has it.  With an empty history the context is the empty
    string.  With N > 0 entries it is the header followed by the N texts
    [role: content] and a line break each, in the order of the history; when
    no role and no content holds a line break, its lines are the empty line
    the header starts with, the header, the N lines [role: content] in order,
    and the empty text after the last line break. *)
Theorem conversation_context_entries :
  Query.conversation_context [] = EmptyString /\
  (forall history : list Query.ConversationMessage,
      history <> [] ->
      Query.conversation_context history =
      Query.context_header +:+ Query.join (map Query.format_message history)) /\
  (forall history : list Query.ConversationMessage,
      history <> [] ->
      Forall (fun msg => Query.single_line (Query.role msg) = true /\
                         Query.single_line (Query.content msg) = true) history ->
      Query.split_lines (Query.conversation_context history) =
      [EmptyString; "Previous conversation:"] ++ Query.formatted_lines history ++ [EmptyString] /\
      length (Query.formatted_lines history) = length history).
Proof.
  split; [ reflexivity | ].
  assert (Hshape : forall history : list Query.ConversationMessage,
             history <> [] ->
             Query.conversation_context history =
             Query.context_header +:+ Query.join (map Query.format_message history)).
  { intros [ | msg rest] Hne; [ contradiction | ].
    unfold Query.conversation_context. apply fold_format. }
  split; [ exact Hshape | ].
  intros history Hne Hlines. split.
  - rewrite (Hshape history Hne). unfold Query.context_header.
    rewrite !append_assoc.
    rewrite <- (append_empty_l (Query.newline +:+ _)).
    rewrite (split_lines_line EmptyString) by reflexivity.
    rewrite (split_lines_line "Previous conversation:") by reflexivity.
    rewrite (split_lines_messages history Hlines). reflexivity.
  - unfold Query.formatted_lines. apply length_map.
Qed.

Lemma conversation_context_entries_witness :
  [Samples.hola; Samples.adios] <> [] /\
  Forall (fun msg => Query.single_line (Query.role msg) = true /\
                     Query.single_line (Query.content msg) = true)
         [Samples.hola; Samples.adios] /\
  Query.split_lines (Query.conversation_context [Samples.hola; Samples.adios]) =
    [EmptyString; "Previous conversation:"; "user: hola"; "assistant: adios"; EmptyString] /\
  Query.conversation_context [Samples.hola; Samples.adios] =
    Query.context_header +:+ Query.join (map Query.format_message [Samples.hola; Samples.adios]).
Proof.
  assert (Hne : [Samples.hola; Samples.adios] <> []) by discriminate.
  assert (Hlines : Forall (fun msg => Query.single_line (Query.role msg) = true /\
                                      Query.single_line (Query.content msg) = true)
                          [Samples.hola; Samples.adios]).
  { repeat constructor. }
  split; [ exact Hne | ]. split; [ exact Hlines | ]. split.
  - exact (proj1 (proj2 (proj2 conversation_context_entries) _ Hne Hlines)).
  - exact (proj1 (proj2 conversation_context_entries) _ Hne).
Defined.

(** C4 as stated fails when a content holds a line break: a history of one
    entry gives the very context a history of two entries gives, and that
    context has two lines of the form [role: content]. *)
Lemma line_break_in_content_counterexample :
  length [Samples.two_line_message] = 1%nat /\
  length [Samples.hola; Samples.adios] = 2%nat /\
  Query.conversation_context [Samples.two_line_message] =
    Query.conversation_context [Samples.hola; Samples.adios] /\
  Samples.count_formatted_lines (Query.conversation_context [Samples.two_line_message]) = 2%nat.
Proof. repeat split. Qed.

(** ** The query route *)

Section QueryFacts.

Import Query.

Variable P : prompts.
Variable rt : runtime.

(** The [try] block, call by call. *)
Lemma try_process_query_calls (q : ChatQuery) (calls : list event) :
  try_process_query P rt q calls =
  match gen_trace_id rt calls with
  | inl e => (inl e, calls ++ [GenTraceId])
  | inr tid =>
      match Runner_run rt (calls_at_orchestrator calls tid)
                       (orchestrator_for P rt q) (InputText (query q)) with
      | inl e => (inl e, calls_at_synthesizer P rt calls tid q ++ [TraceExit])
      | inr o =>
          match Runner_run rt (calls_at_synthesizer P rt calls tid q)
                           (synthesizer_for P q) (InputList (to_input_list o)) with
          | inl e => (inl e, calls_of_request P rt calls tid q o)
          | inr s => (Response_new (final_output s) tid (conversation_id q),
                      calls_of_request P rt calls tid q o)
          end
      end
  end.
Proof.
  unfold try_process_query, io_bind, call_gen_trace_id, with_trace, call_Runner_run, io_ret,
    calls_of_request, calls_at_synthesizer, calls_at_orchestrator.
  fold (orchestrator_for P rt q). fold (synthesizer_for P q).
  destruct (gen_trace_id rt calls) as [e | tid]; [ reflexivity | ].
  rewrite <- ?app_assoc. cbn [app].
  destruct (Runner_run rt _ (orchestrator_for P rt q) _) as [e | o].
  - rewrite <- ?app_assoc. reflexivity.
  - rewrite <- ?app_assoc. cbn [app].
    destruct (Runner_run rt _ (synthesizer_for P q) _) as [e | s];
      rewrite <- ?app_assoc; reflexivity.
Qed.

(** The handler returns what the [try] block returns, and turns what it
    raises into status 500. *)
Lemma process_query_cases (q : ChatQuery) (calls : list event) :
  process_query P rt q calls =
  (match fst (try_process_query P rt q calls) with
   | inr r => Returns r
   | inl e => HTTPException 500 (str e)
   end, snd (try_process_query P rt q calls)).
Proof.
  unfold process_query. destruct (try_process_query P rt q calls) as [[e | r] calls']; reflexivity.
Qed.

(** The route on a body that validates. *)
Lemma post_query_valid (raw : json) (q : ChatQuery) (calls : list event) :
  validate_ChatQuery raw = Some q ->
  post_query P rt raw calls =
  (respond (fst (process_query P rt q calls)), snd (process_query P rt q calls)).
Proof.
  intros Hq. unfold post_query. rewrite Hq.
  destruct (process_query P rt q calls); reflexivity.
Qed.

(** A [Response] is built with the trace identifier and the conversation
    identifier it is given. *)
Lemma Response_new_inr (output : PyValue) (tid : string) (cid : option string) (r : Response) :
  Response_new output tid cid = inr r ->
  output = PyStr (response r) /\ trace_id r = tid /\ Response_conversation_id r = cid.
Proof.
  destruct output; cbn; try discriminate. intros [= <-]. auto.
Qed.

(** What a returned [Response] says about the calls that were made. *)
Lemma process_query_returns (q : ChatQuery) (calls calls' : list event) (r : Response) :
  process_query P rt q calls = (Returns r, calls') ->
  exists tid o s,
    gen_trace_id rt calls = inr tid /\
    Runner_run rt (calls_at_orchestrator calls tid)
               (orchestrator_for P rt q) (InputText (query q)) = inr o /\
    Runner_run rt (calls_at_synthesizer P rt calls tid q)
               (synthesizer_for P q) (InputList (to_input_list o)) = inr s /\
    Response_new (final_output s) tid (conversation_id q) = inr r /\
    calls' = calls_of_request P rt calls tid q o.
Proof.
  rewrite process_query_cases, try_process_query_calls.
  destruct (gen_trace_id rt calls) as [e | tid]; cbn [fst snd]; [ discriminate | ].
  destruct (Runner_run rt _ (orchestrator_for P rt q) _) as [e | o] eqn:Ho;
    cbn [fst snd]; [ discriminate | ].
  destruct (Runner_run rt _ (synthesizer_for P q) _) as [e | s] eqn:Hs;
    cbn [fst snd]; [ discriminate | ].
  destruct (Response_new (final_output s) tid (conversation_id q)) as [e | r'] eqn:Hr;
    [ discriminate | ].
  intros [= <- <-]. exists tid, o, s. auto.
Qed.

End QueryFacts.

(** C5 as stated fails for a failure of validation: a body without the
    required [query] does not validate, is answered with status 422, not 500,
    and no call is made. *)
Lemma missing_query_field_counterexample :
  Query.validate_ChatQuery (Query.JObject []) = None /\
  Query.post_query Samples.sample_prompts Samples.scripted (Query.JObject []) [] =
    (mk_http_response 422 ValidationErrors, []) /\
  status (fst (Query.post_query Samples.sample_prompts Samples.scripted (Query.JObject []) [])) <> 500.
Proof. repeat split. discriminate. Qed.

(** C5, as the code has it.  A body that fails validation is answered with
    status 422 before the handler runs.  For a body that validates, an
    exception raised by the trace-identifier call, by the orchestrator run, by
    the synthesizer run or by the construction of the Response is answered
    with status 500 and the text of the exception as detail; and every answer
    is either status 200 with a whole Response or status 500 with a detail. *)
Theorem query_failure_is_status_500 :
  forall (P : Query.prompts) (rt : Query.runtime) (raw : Query.json) (calls : list Query.event),
    (Query.validate_ChatQuery raw = None ->
     Query.post_query P rt raw calls = (mk_http_response 422 ValidationErrors, calls)) /\
    (forall q, Query.validate_ChatQuery raw = Some q ->
       (forall e, Query.gen_trace_id rt calls = inl e ->
                  fst (Query.post_query P rt raw calls) = mk_http_response 500 (Detail (str e))) /\
       (forall tid e,
           Query.gen_trace_id rt calls = inr tid ->
           Query.Runner_run rt (Query.calls_at_orchestrator calls tid)
                            (Query.orchestrator_for P rt q) (Query.InputText (Query.query q)) = inl e ->
           fst (Query.post_query P rt raw calls) = mk_http_response 500 (Detail (str e))) /\
       (forall tid o e,
           Query.gen_trace_id rt calls = inr tid ->
           Query.Runner_run rt (Query.calls_at_orchestrator calls tid)
                            (Query.orchestrator_for P rt q) (Query.InputText (Query.query q)) = inr o ->
           Query.Runner_run rt (Query.calls_at_synthesizer P rt calls tid q)
                            (Query.synthesizer_for P q)
                            (Query.InputList (Query.to_input_list o)) = inl e ->
           fst (Query.post_query P rt raw calls) = mk_http_response 500 (Detail (str e))) /\
       (forall tid o s e,
           Query.gen_trace_id rt calls = inr tid ->
           Query.Runner_run rt (Query.calls_at_orchestrator calls tid)
                            (Query.orchestrator_for P rt q) (Query.InputText (Query.query q)) = inr o ->
           Query.Runner_run rt (Query.calls_at_synthesizer P rt calls tid q)
                            (Query.synthesizer_for P q)
                            (Query.InputList (Query.to_input_list o)) = inr s ->
           Query.Response_new (Query.final_output s) tid (Query.conversation_id q) = inl e ->
           fst (Query.post_query P rt raw calls) = mk_http_response 500 (Detail (str e))) /\
       ((exists r, fst (Query.post_query P rt raw calls) = mk_http_response 200 (Json r)) \/
        (exists detail, fst (Query.post_query P rt raw calls) = mk_http_response 500 (Detail detail)))).
Proof.
  intros P rt raw calls. split.
  - intros Hraw. unfold Query.post_query. rewrite Hraw. reflexivity.
  - intros q Hq. rewrite (post_query_valid P rt raw q calls Hq). cbn [fst].
    rewrite process_query_cases, try_process_query_calls. cbn [fst].
    repeat split.
    + intros e ->. reflexivity.
    + intros tid e -> ->. reflexivity.
    + intros tid o e -> -> ->. reflexivity.
    + intros tid o s e -> -> -> ->. reflexivity.
    + destruct (Query.gen_trace_id rt calls) as [e | tid]; [ right; eexists; reflexivity | ].
      destruct (Query.Runner_run rt _ (Query.orchestrator_for P rt q) _) as [e | o];
        [ right; eexists; reflexivity | ].
      destruct (Query.Runner_run rt _ (Query.synthesizer_for P q) _) as [e | s];
        [ right; eexists; reflexivity | ].
      cbn [fst].
      destruct (Query.Response_new (Query.final_output s) tid (Query.conversation_id q)) as [e | r];
        [ right | left ]; eexists; reflexivity.
Qed.

Lemma query_failure_is_status_500_witness :
  Query.validate_ChatQuery Samples.roma_body = Some Samples.roma_query /\
  Query.gen_trace_id Samples.unreachable [] = inr "trace_0002" /\
  fst (Query.post_query Samples.sample_prompts Samples.unreachable Samples.roma_body []) =
    mk_http_response 500 (Detail "Connection error.") /\
  Query.post_query Samples.sample_prompts Samples.unreachable (Query.JObject []) [] =
    (mk_http_response 422 ValidationErrors, []).
Proof.
  assert (Hq : Query.validate_ChatQuery Samples.roma_body = Some Samples.roma_query) by reflexivity.
  split; [ exact Hq | ]. split; [ reflexivity | ]. split.
  - apply (proj1 (proj2 (proj2 (query_failure_is_status_500
                                  Samples.sample_prompts Samples.unreachable Samples.roma_body [])
                                Samples.roma_query Hq))
             "trace_0002" (PyException "APIConnectionError" "Connection error."));
      reflexivity.
  - apply (proj1 (query_failure_is_status_500
                    Samples.sample_prompts Samples.unreachable (Query.JObject []) [])).
    reflexivity.
Defined.

(** The four agents of a request carry the same conversation context in
    their instructions. *)
Lemma agents_share_context (P : Query.prompts) (rt : Query.runtime) (q : Query.ChatQuery) :
  let context := Query.conversation_context (Query.history q) in
  Query.instructions_of (Query.create_maps_agent P rt context) =
    Query.fill (Query.maps_instructions P) context /\
  Query.instructions_of (Query.create_payments_agent P rt context) =
    Query.fill (Query.payments_instructions P) context /\
  Query.instructions_of (Query.synthesizer_for P q) =
    Query.fill (Query.synthesizer_instructions P) context /\
  Query.instructions_of (Query.orchestrator_for P rt q) =
    Query.fill (Query.orchestrator_instructions P) context /\
  Query.name_of (Query.orchestrator_for P rt q) = "Travel Orchestrator" /\
  Query.name_of (Query.synthesizer_for P q) = "Travel Experience Synthesizer".
Proof. repeat split. Qed.

(** C7. The handler runs the orchestrator on the query text and then the
    synthesizer on the orchestrator result's input list, the second call
    being made after the first has returned; the Response carries the
    synthesizer's final output and the trace identifier generated for the
    request.  When the library calls succeed and the final output is a
    string the handler returns that Response. *)
Theorem orchestrator_then_synthesizer :
  forall (P : Query.prompts) (rt : Query.runtime) (q : Query.ChatQuery) (calls : list Query.event),
    (forall tid o s text,
        Query.gen_trace_id rt calls = inr tid ->
        Query.Runner_run rt (Query.calls_at_orchestrator calls tid)
                         (Query.orchestrator_for P rt q) (Query.InputText (Query.query q)) = inr o ->
        Query.Runner_run rt (Query.calls_at_synthesizer P rt calls tid q)
                         (Query.synthesizer_for P q)
                         (Query.InputList (Query.to_input_list o)) = inr s ->
        Query.final_output s = Query.PyStr text ->
        Query.process_query P rt q calls =
        (Returns {| Query.response := text; Query.trace_id := tid;
                    Query.Response_conversation_id := Query.conversation_id q |},
         Query.calls_of_request P rt calls tid q o)) /\
    (forall r calls',
        Query.process_query P rt q calls = (Returns r, calls') ->
        exists tid o s,
          Query.gen_trace_id rt calls = inr tid /\
          Query.Runner_run rt (Query.calls_at_orchestrator calls tid)
                           (Query.orchestrator_for P rt q) (Query.InputText (Query.query q)) = inr o /\
          Query.Runner_run rt (Query.calls_at_synthesizer P rt calls tid q)
                           (Query.synthesizer_for P q)
                           (Query.InputList (Query.to_input_list o)) = inr s /\
          calls' = calls ++ [Query.GenTraceId;
                             Query.TraceEnter "Travel Assistant API" tid;
                             Query.RunnerRun (Query.orchestrator_for P rt q)
                                             (Query.InputText (Query.query q));
                             Query.RunnerRun (Query.synthesizer_for P q)
                                             (Query.InputList (Query.to_input_list o));
                             Query.TraceExit] /\
          Query.runs calls' =
            Query.runs calls ++
            [(Query.orchestrator_for P rt q, Query.InputText (Query.query q));
             (Query.synthesizer_for P q, Query.InputList (Query.to_input_list o))] /\
          Query.final_output s = Query.PyStr (Query.response r) /\
          Query.trace_id r = tid).
Proof.
  intros P rt q calls. split.
  - intros tid o s text Htid Ho Hs Hout.
    rewrite process_query_cases, try_process_query_calls.
    rewrite Htid, Ho, Hs, Hout. reflexivity.
  - intros r calls' Hret.
    destruct (process_query_returns P rt q calls calls' r Hret)
      as (tid & o & s & Htid & Ho & Hs & Hr & Hcalls).
    destruct (Response_new_inr _ _ _ _ Hr) as (Hout & Hid & _).
    assert (Hlog : calls' = calls ++ [Query.GenTraceId;
                             Query.TraceEnter "Travel Assistant API" tid;
                             Query.RunnerRun (Query.orchestrator_for P rt q)
                                             (Query.InputText (Query.query q));
                             Query.RunnerRun (Query.synthesizer_for P q)
                                             (Query.InputList (Query.to_input_list o));
                             Query.TraceExit]).
    { rewrite Hcalls.
      unfold Query.calls_of_request, Query.calls_at_synthesizer, Query.calls_at_orchestrator.
      rewrite <- !app_assoc. reflexivity. }
    exists tid, o, s. repeat split; try assumption.
    rewrite Hlog. unfold Query.runs. rewrite flat_map_app. reflexivity.
Qed.

Lemma orchestrator_then_synthesizer_witness :
  Query.gen_trace_id Samples.scripted [] = inr "trace_0001" /\
  Query.process_query Samples.sample_prompts Samples.scripted Samples.roma_query [] =
    (Returns {| Query.response := "Paquete Completo a Roma";
                Query.trace_id := "trace_0001";
                Query.Response_conversation_id := Some "conv-7" |},
     Query.calls_of_request Samples.sample_prompts Samples.scripted [] "trace_0001"
                            Samples.roma_query Samples.orchestrator_output).
Proof.
  split; [ reflexivity | ].
  apply (proj1 (orchestrator_then_synthesizer
                  Samples.sample_prompts Samples.scripted Samples.roma_query [])
           "trace_0001" Samples.orchestrator_output Samples.synthesizer_output
           "Paquete Completo a Roma"); reflexivity.
Defined.

(** C10. A Response returned by the handler carries the conversation
    identifier of the request, unchanged; through the route, the identifier is
    the one the body validated to, which is null exactly when the body has no
    [conversation_id] or has it null. *)
Theorem conversation_id_unchanged :
  forall (P : Query.prompts) (rt : Query.runtime),
    (forall q calls r calls',
        Query.process_query P rt q calls = (Returns r, calls') ->
        Query.Response_conversation_id r = Query.conversation_id q) /\
    (forall raw calls code r calls',
        Query.post_query P rt raw calls = (mk_http_response code (Json r), calls') ->
        exists q, Query.validate_ChatQuery raw = Some q /\
                  Query.Response_conversation_id r = Query.conversation_id q) /\
    (forall members q,
        Query.validate_ChatQuery (Query.JObject members) = Some q ->
        Query.conversation_id q =
        match Query.member "conversation_id" members with
        | Some (Query.JString s) => Some s
        | _ => None
        end).
Proof.
  intros P rt.
  assert (Hhandler : forall q calls r calls',
             Query.process_query P rt q calls = (Returns r, calls') ->
             Query.Response_conversation_id r = Query.conversation_id q).
  { intros q calls r calls' Hret.
    destruct (process_query_returns P rt q calls calls' r Hret)
      as (tid & o & s & _ & _ & _ & Hr & _).
    now destruct (Response_new_inr _ _ _ _ Hr) as (_ & _ & Hcid). }
  split; [ exact Hhandler | ]. split.
  - intros raw calls code r calls'. unfold Query.post_query.
    destruct (Query.validate_ChatQuery raw) as [q | ]; [ | discriminate ].
    destruct (Query.process_query P rt q calls) as [[r' | c d] calls''] eqn:Hp; cbn;
      [ | discriminate ].
    intros [= _ <- _]. exists q. split; [ reflexivity | ].
    exact (Hhandler q calls r' calls'' Hp).
  - intros members q. unfold Query.validate_ChatQuery, Query.validate_conversation_id.
    destruct (Query.required_str "query" members); [ | discriminate ].
    destruct (Query.validate_history members); [ | discriminate ].
    destruct (Query.member "conversation_id" members) as [[ | | | | | ] | ];
      try discriminate; intros [= <-]; reflexivity.
Qed.

Lemma conversation_id_unchanged_witness :
  Query.process_query Samples.sample_prompts Samples.scripted Samples.roma_query [] =
    (Returns {| Query.response := "Paquete Completo a Roma";
                Query.trace_id := "trace_0001";
                Query.Response_conversation_id := Some "conv-7" |},
     Query.calls_of_request Samples.sample_prompts Samples.scripted [] "trace_0001"
                            Samples.roma_query Samples.orchestrator_output) /\
  Some "conv-7" = Query.conversation_id Samples.roma_query.
Proof.
  assert (Hret : Query.process_query Samples.sample_prompts Samples.scripted Samples.roma_query [] =
    (Returns {| Query.response := "Paquete Completo a Roma";
                Query.trace_id := "trace_0001";
                Query.Response_conversation_id := Some "conv-7" |},
     Query.calls_of_request Samples.sample_prompts Samples.scripted [] "trace_0001"
                            Samples.roma_query Samples.orchestrator_output)) by reflexivity.
  split; [ exact Hret | ].
  exact (proj1 (conversation_id_unchanged Samples.sample_prompts Samples.scripted)
           Samples.roma_query [] _ _ Hret).
Defined.

(** ** Start-up *)

Section LifespanFacts.

Import Lifespan.

Variable ext : externals.
Variable environ : gmap string string.

(** Where a coroutine is after coroutine [i] has moved to [p]. *)
Lemma lookup_goto (i j : nat) (p q : pc) (s : state) :
  goto i p s !! j = Some q ->
  (j = i /\ q = p) \/ (j <> i /\ coroutines s !! j = Some q).
Proof.
  unfold goto. intros Hj. destruct (decide (j = i)) as [-> | Hne].
  - left. split; [ reflexivity | ].
    assert (Hlt : (i < length (coroutines s))%nat).
    { apply lookup_lt_Some in Hj. now rewrite length_insert in Hj. }
    rewrite list_lookup_insert_eq in Hj by exact Hlt. congruence.
  - right. split; [ exact Hne | ].
    rewrite list_lookup_insert_ne in Hj by congruence. exact Hj.
Qed.

Lemma lookup_goto_eq (i : nat) (p q : pc) (s : state) :
  coroutines s !! i = Some p -> goto i q s !! i = Some q.
Proof.
  intros Hi. unfold goto. apply list_lookup_insert_eq. exact (lookup_lt_Some _ _ _ Hi).
Qed.

Lemma lookup_goto_ne (i j : nat) (q : pc) (s : state) :
  j <> i -> goto i q s !! j = coroutines s !! j.
Proof. intros Hne. unfold goto. apply list_lookup_insert_ne. congruence. Qed.

(** Replacing one coroutine changes the number of failures by that one. *)
Lemma count_failed_insert (l : list pc) (i : nat) (old new : pc) :
  l !! i = Some old ->
  (count_failed (<[i := new]> l) + (if is_failed old then 1 else 0) =
   count_failed l + (if is_failed new then 1 else 0))%nat.
Proof.
  revert i. induction l as [ | p rest IH]; intros i Hi; [ discriminate | ].
  destruct i as [ | i].
  - injection Hi as ->. cbn [count_failed]. change (<[0%nat := new]> (old :: rest)) with (new :: rest).
    cbn [count_failed]. lia.
  - change (<[S i := new]> (p :: rest)) with (p :: <[i := new]> rest).
    cbn [count_failed]. specialize (IH i Hi). lia.
Qed.

Lemma count_failed_goto (i : nat) (old new : pc) (s : state) :
  coroutines s !! i = Some old -> is_failed old = false ->
  count_failed (goto i new s) =
  (count_failed (coroutines s) + (if is_failed new then 1 else 0))%nat.
Proof.
  intros Hi Hold. pose proof (count_failed_insert _ i old new Hi) as H.
  rewrite Hold in H. unfold goto. lia.
Qed.

Lemma count_failed_replicate (n : nat) : count_failed (replicate n AtLock) = 0%nat.
Proof. induction n as [ | n IH]; [ reflexivity | exact IH ]. Qed.

Lemma initial_invariant (n : nat) : invariant ext environ (initial n).
Proof.
  assert (Hall : forall i p, replicate n AtLock !! i = Some p -> p = AtLock).
  { intros i p Hi. now apply lookup_replicate in Hi as [-> _]. }
  split; cbn.
  - intros i p Hi Hcrit. rewrite (Hall i p Hi) in Hcrit. discriminate.
  - discriminate.
  - discriminate.
  - reflexivity.
  - lia.
  - intros i Hi. specialize (Hall i _ Hi). discriminate.
  - discriminate.
  - intros i p Hi [-> | ->]; specialize (Hall i _ Hi); discriminate.
  - intros i e Hi. specialize (Hall i _ Hi). discriminate.
  - intros srv _ i j e e' Hi. specialize (Hall i _ Hi). discriminate.
  - reflexivity.
  - intros e _. now rewrite count_failed_replicate.
Qed.

(** Two coroutines in the critical section are one. *)
Lemma holder_unique (s : state) (i j : nat) (p q : pc) :
  invariant ext environ s ->
  coroutines s !! i = Some p -> coroutines s !! j = Some q ->
  critical p = true -> critical q = true -> i = j.
Proof.
  intros Hinv Hi Hj Hp Hq.
  pose proof (inv_holder ext environ s Hinv i p Hi Hp) as Hli.
  pose proof (inv_holder ext environ s Hinv j q Hj Hq) as Hlj.
  congruence.
Qed.

(** The holder of the lock is the only coroutine in the critical section. *)
Lemma critical_is_holder (s : state) (i j : nat) (p q : pc) :
  invariant ext environ s ->
  coroutines s !! i = Some p -> critical p = true ->
  coroutines s !! j = Some q -> critical q = true -> q = p.
Proof.
  intros Hinv Hi Hp Hj Hq.
  pose proof (holder_unique s i j p q Hinv Hi Hj Hp Hq) as <-. congruence.
Qed.

Ltac project_state := cbn [Lifespan.server Lifespan.lock Lifespan.coroutines Lifespan.attempts
                           Lifespan.constructed Lifespan.connects].

Lemma step_invariant (i : nat) (s : state) :
  invariant ext environ s -> invariant ext environ (step ext environ i s).
Proof.
  intros Hinv. unfold step.
  destruct (coroutines s !! i) as [p | ] eqn:Hi; [ | exact Hinv ].
  destruct p; try exact Hinv.
  - (* AtLock *)
    destruct (lock s) as [owner | ] eqn:Hl; [ exact Hinv | ].
    assert (Hfree : forall j q, coroutines s !! j = Some q -> critical q = true -> False).
    { intros j q Hj Hq. pose proof (inv_holder _ _ s Hinv j q Hj Hq). congruence. }
    destruct Hinv as [Hholder Hheld Hserver Hcount Hconn Hat Hconnected Hserving Hfailed
                        Hone Hatt Hattf].
    split; project_state.
    + intros j q Hj Hq. apply lookup_goto in Hj as [[-> _] | [_ Hj]]; [ reflexivity | ].
      destruct (Hfree j q Hj Hq).
    + intros k [= <-]. exists AtCheck.
      split; [ exact (lookup_goto_eq i _ _ s Hi) | reflexivity ].
    + exact Hserver.
    + exact Hcount.
    + exact Hconn.
    + intros j Hj. apply lookup_goto in Hj as [[_ [=]] | [_ Hj]]. exact (Hat j Hj).
    + intros H1 H0. destruct (Hconnected H1 H0) as [k Hk]. destruct (Hfree k _ Hk eq_refl).
    + intros j q Hj Hq. apply lookup_goto in Hj as [[_ ->] | [_ Hj]].
      * destruct Hq; discriminate.
      * exact (Hserving j q Hj Hq).
    + intros j e Hj. apply lookup_goto in Hj as [[_ [=]] | [_ Hj]]. exact (Hfailed j e Hj).
    + intros srv Hsrv j k e e' Hj Hk.
      apply lookup_goto in Hj as [[_ [=]] | [_ Hj]].
      apply lookup_goto in Hk as [[_ [=]] | [_ Hk]].
      exact (Hone srv Hsrv j k e e' Hj Hk).
    + exact Hatt.
    + intros e He. rewrite (count_failed_goto i AtLock AtCheck s Hi eq_refl).
      rewrite (Hattf e He). cbn. lia.
  - (* AtCheck *)
    pose proof (inv_holder _ _ s Hinv i AtCheck Hi eq_refl) as Hl.
    assert (Honly : forall j q, coroutines s !! j = Some q -> critical q = true -> q = AtCheck).
    { intros j q Hj Hq. exact (critical_is_holder s i j AtCheck q Hinv Hi eq_refl Hj Hq). }
    assert (Hother : forall j q, j <> i -> coroutines s !! j = Some q -> critical q = true -> False).
    { intros j q Hne Hj Hq. apply Hne. symmetry.
      exact (holder_unique s i j AtCheck q Hinv Hi Hj eq_refl Hq). }
    assert (Hnoconnect : forall j, coroutines s !! j = Some AtConnect -> False).
    { intros j Hj. specialize (Honly j _ Hj eq_refl). discriminate. }
    destruct Hinv as [Hholder Hheld Hserver Hcount Hconn Hat Hconnected Hserving Hfailed
                        Hone Hatt Hattf].
    destruct (server s) as [srv | ] eqn:Hsrv; rewrite ?Hsrv in *.
    + (* the handle is set: leave the block *)
      assert (Hc1 : constructed s = 1%nat) by exact Hcount.
      assert (Hn1 : connects s = 1%nat).
      { destruct (connects s) as [ | [ | k]] eqn:Hk; [ | reflexivity | lia ].
        destruct (Hconnected Hc1 eq_refl) as [j Hj]. destruct (Hnoconnect j Hj). }
      split; project_state.
      * intros j q Hj Hq. apply lookup_goto in Hj as [[_ ->] | [Hne Hj]]; [ discriminate | ].
        destruct (Hother j q Hne Hj Hq).
      * discriminate.
      * exact Hserver.
      * exact Hcount.
      * exact Hconn.
      * intros j Hj. apply lookup_goto in Hj as [[_ [=]] | [_ Hj]]. exact (Hat j Hj).
      * intros _ H0. lia.
      * intros j q Hj Hq. auto.
      * intros j e Hj. apply lookup_goto in Hj as [[_ [=]] | [_ Hj]]. exact (Hfailed j e Hj).
      * intros srv' Hsrv' j k e e' Hj Hk.
        apply lookup_goto in Hj as [[_ [=]] | [_ Hj]].
        apply lookup_goto in Hk as [[_ [=]] | [_ Hk]].
        exact (Hone srv' Hsrv' j k e e' Hj Hk).
      * exact Hatt.
      * intros e He. rewrite (count_failed_goto i AtCheck Serving s Hi eq_refl).
        rewrite (Hattf e He). cbn. lia.
    + (* no handle: construct *)
      assert (Hc0 : constructed s = 0%nat) by exact Hcount.
      assert (Hn0 : connects s = 0%nat) by lia.
      assert (Hnoserving : forall j q, coroutines s !! j = Some q ->
                                       q = Serving \/ q = Finished -> False).
      { intros j q Hj Hq. destruct (Hserving j q Hj Hq). lia. }
      destruct (new_maps_server ext environ) as [e | built] eqn:Hnew.
      * (* the constructor raises *)
        split; project_state.
        -- intros j q Hj Hq. apply lookup_goto in Hj as [[_ ->] | [Hne Hj]]; [ discriminate | ].
           destruct (Hother j q Hne Hj Hq).
        -- discriminate.
        -- discriminate.
        -- exact Hcount.
        -- exact Hconn.
        -- intros j Hj. apply lookup_goto in Hj as [[_ [=]] | [_ Hj]]. exact (Hat j Hj).
        -- intros H1. lia.
        -- intros j q Hj Hq. apply lookup_goto in Hj as [[_ ->] | [_ Hj]].
           ++ destruct Hq; discriminate.
           ++ destruct (Hnoserving j q Hj Hq).
        -- intros j e' Hj. apply lookup_goto in Hj as [[_ [= ->]] | [_ Hj]];
             [ left; exact Hnew | ].
           destruct (Hfailed j e' Hj) as [Hleft | (srv & Hs & _)];
             [ left; congruence | discriminate ].
        -- intros srv' Hsrv'. congruence.
        -- intros srv' Hsrv'. congruence.
        -- intros e' _. rewrite (count_failed_goto i AtCheck (Failed e) s Hi eq_refl).
           rewrite (Hattf e eq_refl). cbn. lia.
      * (* the constructor returns the server *)
        assert (Hnofailed : forall j e, coroutines s !! j = Some (Failed e) -> False).
        { intros j e Hj.
          destruct (Hfailed j e Hj) as [Hleft | (srv & Hs & _)]; [ congruence | discriminate ]. }
        split; project_state.
        -- intros j q Hj Hq. apply lookup_goto in Hj as [[-> _] | [Hne Hj]]; [ exact Hl | ].
           destruct (Hother j q Hne Hj Hq).
        -- intros k Hk. rewrite Hl in Hk. injection Hk as <-. exists AtConnect.
           split; [ exact (lookup_goto_eq i _ _ s Hi) | reflexivity ].
        -- intros srv' [= <-]. exact Hnew.
        -- now rewrite Hc0.
        -- lia.
        -- intros j Hj. split; lia.
        -- intros _ _. exists i. exact (lookup_goto_eq i _ _ s Hi).
        -- intros j q Hj Hq. apply lookup_goto in Hj as [[_ ->] | [_ Hj]].
           ++ destruct Hq; discriminate.
           ++ destruct (Hnoserving j q Hj Hq).
        -- intros j e Hj. apply lookup_goto in Hj as [[_ [=]] | [_ Hj]].
           destruct (Hnofailed j e Hj).
        -- intros srv' _ j k e e' Hj Hk.
           apply lookup_goto in Hj as [[_ [=]] | [_ Hj]]. destruct (Hnofailed j e Hj).
        -- intros srv' _. rewrite (Hatt built eq_refl). reflexivity.
        -- intros e He. congruence.
  - (* AtConnect *)
    pose proof (inv_holder _ _ s Hinv i AtConnect Hi eq_refl) as Hl.
    assert (Hother : forall j q, j <> i -> coroutines s !! j = Some q -> critical q = true -> False).
    { intros j q Hne Hj Hq. apply Hne. symmetry.
      exact (holder_unique s i j AtConnect q Hinv Hi Hj eq_refl Hq). }
    destruct Hinv as [Hholder Hheld Hserver Hcount Hconn Hat Hconnected Hserving Hfailed
                        Hone Hatt Hattf].
    destruct (Hat i Hi) as [Hn0 Hc1].
    destruct (server s) as [srv | ] eqn:Hsrv; rewrite ?Hsrv in *; [ | lia ].
    pose proof (Hserver srv eq_refl) as Hnew.
    assert (Hnofailed : forall j e, coroutines s !! j = Some (Failed e) -> False).
    { intros j e Hj. destruct (Hfailed j e Hj) as [Hleft | (srv' & _ & _ & Hn)];
        [ congruence | lia ]. }
    split; project_state.
    + intros j q Hj Hq. apply lookup_goto in Hj as [[_ ->] | [Hne Hj]].
      * destruct (connect ext srv); discriminate.
      * destruct (Hother j q Hne Hj Hq).
    + discriminate.
    + exact Hserver.
    + exact Hcount.
    + lia.
    + intros j Hj. apply lookup_goto in Hj as [[_ Heq] | [Hne Hj]].
      * destruct (connect ext srv); discriminate.
      * destruct (Hother j _ Hne Hj eq_refl).
    + discriminate.
    + intros j q Hj Hq. split; [ exact Hc1 | now rewrite Hn0 ].
    + intros j e Hj. apply lookup_goto in Hj as [[_ Heq] | [_ Hj]].
      * right. exists srv. destruct (connect ext srv) as [e0 | u]; [ | discriminate ].
        injection Heq as ->. rewrite Hn0. auto.
      * destruct (Hnofailed j e Hj).
    + intros srv' _ j k e e' Hj Hk.
      apply lookup_goto in Hj as [[-> _] | [_ Hj]]; [ | destruct (Hnofailed j e Hj) ].
      apply lookup_goto in Hk as [[-> _] | [_ Hk]]; [ reflexivity | destruct (Hnofailed k e' Hk) ].
    + exact Hatt.
    + intros e He. congruence.
  - (* Serving *)
    destruct Hinv as [Hholder Hheld Hserver Hcount Hconn Hat Hconnected Hserving Hfailed
                        Hone Hatt Hattf].
    destruct (Hserving i Serving Hi (or_introl eq_refl)) as [Hc1 Hn1].
    split; project_state.
    + intros j q Hj Hq. apply lookup_goto in Hj as [[_ ->] | [_ Hj]]; [ discriminate | ].
      exact (Hholder j q Hj Hq).
    + intros k Hk. destruct (Hheld k Hk) as (q & Hq & Hcrit). exists q. split; [ | exact Hcrit ].
      rewrite lookup_goto_ne; [ exact Hq | ].
      intros ->. rewrite Hi in Hq. injection Hq as <-. discriminate.
    + exact Hserver.
    + exact Hcount.
    + exact Hconn.
    + intros j Hj. apply lookup_goto in Hj as [[_ [=]] | [_ Hj]]. exact (Hat j Hj).
    + intros _ H0. lia.
    + intros j q Hj Hq. auto.
    + intros j e Hj. apply lookup_goto in Hj as [[_ [=]] | [_ Hj]]. exact (Hfailed j e Hj).
    + intros srv Hsrv j k e e' Hj Hk.
      apply lookup_goto in Hj as [[_ [=]] | [_ Hj]].
      apply lookup_goto in Hk as [[_ [=]] | [_ Hk]].
      exact (Hone srv Hsrv j k e e' Hj Hk).
    + exact Hatt.
    + intros e He. rewrite (count_failed_goto i Serving Finished s Hi eq_refl).
      rewrite (Hattf e He). cbn. lia.
Qed.

Lemma run_invariant (schedule : list nat) (s : state) :
  invariant ext environ s -> invariant ext environ (run ext environ schedule s).
Proof.
  revert s. induction schedule as [ | i rest IH]; intros s Hinv; [ exact Hinv | ].
  cbn. apply IH. now apply step_invariant.
Qed.

End LifespanFacts.

Section BootFacts.

Import Lifespan.

Variable ext : externals.
Variable environ : gmap string string.

(** Without the maps key the constructor refuses its parameters. *)
Lemma new_maps_server_absent :
  getenv environ "GOOGLE_MAPS_API_KEY" = None ->
  new_maps_server ext environ =
  inl (PyException "ValidationError" (params_error ext [("GOOGLE_MAPS_API_KEY", None)])).
Proof.
  intros Hkey. unfold new_maps_server, MCPServerStdio_new, maps_server_arguments.
  cbn [env]. rewrite Hkey. reflexivity.
Qed.

(** With the maps key the constructor gives the server as written. *)
Lemma new_maps_server_present (k : string) :
  getenv environ "GOOGLE_MAPS_API_KEY" = Some k ->
  new_maps_server ext environ = inr (maps_server_arguments environ).
Proof.
  intros Hkey. unfold new_maps_server, MCPServerStdio_new, maps_server_arguments.
  cbn [env]. rewrite Hkey. reflexivity.
Qed.

(** Start-up, call by call. *)
Lemma boot_calls :
  boot ext environ =
  match StripeAgentToolkit ext (getenv environ "STRIPE_SECRET_KEY") configuration with
  | inl e => inl e
  | inr tools =>
      match new_maps_server ext environ with
      | inl e => inl e
      | inr srv =>
          match connect ext srv with
          | inl e => inl e
          | inr _ => inr {| stripe_api_key := getenv environ "STRIPE_SECRET_KEY";
                            stripe_agent_toolkit := tools;
                            maps_server := Some srv |}
          end
      end
  end.
Proof.
  unfold boot, import_main.
  destruct (StripeAgentToolkit ext _ configuration) as [e | tools]; [ reflexivity | ].
  cbn. unfold startup. cbn [maps_server].
  destruct (new_maps_server ext environ) as [e | srv]; [ reflexivity | ].
  destruct (connect ext srv); reflexivity.
Qed.

End BootFacts.

(** C6 as stated fails: with the payment key absent from the environment
    start-up completes, [stripe.api_key] is [None], and the absence comes out
    for a request, as the provider's error in the answer of
    POST /create-payment-intent. *)
Lemma absent_payment_key_counterexample :
  Lifespan.getenv Lifespan.maps_key_only "STRIPE_SECRET_KEY" = None /\
  match Lifespan.boot Lifespan.lenient Lifespan.maps_key_only with
  | inl _ => False
  | inr p =>
      Lifespan.stripe_api_key p = None /\
      Payment.post_create_payment_intent Payment.keyed_sdk (Lifespan.stripe_api_key p)
                                         Payment.request_10 =
      mk_http_response 200
        (Json {| Payment.success := false; Payment.payment_id := None;
                 Payment.error := Some "No API key provided." |})
  end.
Proof. split; vm_compute; [ reflexivity | split; reflexivity ]. Qed.

(** C6, as the code has it.  Without the maps key start-up fails: the
    construction of the maps server refuses the absent value with a
    validation error, which is re-raised, whatever [connect] would do.  The
    payment key is not checked: what [os.getenv] gives, [None] when the
    variable is absent, goes to the toolkit constructor and into
    [stripe.api_key]; with the maps key set, start-up raises exactly when the
    toolkit constructor or [connect] raises, and then that very exception,
    and completes otherwise.  After a start-up with the payment key absent,
    an error the provider raises for the missing key is answered for the
    request, with status 200 and success false. *)
Theorem boot_key_handling :
  forall (ext : Lifespan.externals) (environ : gmap string string),
    (forall e,
        Lifespan.StripeAgentToolkit ext (Lifespan.getenv environ "STRIPE_SECRET_KEY")
                                    Lifespan.configuration = inl e ->
        Lifespan.boot ext environ = inl e) /\
    (forall tools,
        Lifespan.StripeAgentToolkit ext (Lifespan.getenv environ "STRIPE_SECRET_KEY")
                                    Lifespan.configuration = inr tools ->
        Lifespan.getenv environ "GOOGLE_MAPS_API_KEY" = None ->
        Lifespan.boot ext environ =
        inl (PyException "ValidationError"
               (Lifespan.params_error ext [("GOOGLE_MAPS_API_KEY", None)]))) /\
    (forall tools k e,
        Lifespan.StripeAgentToolkit ext (Lifespan.getenv environ "STRIPE_SECRET_KEY")
                                    Lifespan.configuration = inr tools ->
        Lifespan.getenv environ "GOOGLE_MAPS_API_KEY" = Some k ->
        Lifespan.connect ext (Lifespan.maps_server_arguments environ) = inl e ->
        Lifespan.boot ext environ = inl e) /\
    (forall tools k u,
        Lifespan.StripeAgentToolkit ext (Lifespan.getenv environ "STRIPE_SECRET_KEY")
                                    Lifespan.configuration = inr tools ->
        Lifespan.getenv environ "GOOGLE_MAPS_API_KEY" = Some k ->
        Lifespan.connect ext (Lifespan.maps_server_arguments environ) = inr u ->
        Lifespan.boot ext environ =
        inr {| Lifespan.stripe_api_key := Lifespan.getenv environ "STRIPE_SECRET_KEY";
               Lifespan.stripe_agent_toolkit := tools;
               Lifespan.maps_server := Some (Lifespan.maps_server_arguments environ) |}) /\
    (forall p sdk request params e,
        Lifespan.boot ext environ = inr p ->
        Lifespan.getenv environ "STRIPE_SECRET_KEY" = None ->
        Payment.payment_intent_params request = inr params ->
        sdk None params = inl e ->
        Payment.post_create_payment_intent sdk (Lifespan.stripe_api_key p) request =
        mk_http_response 200 (Json (Payment.failure_response e))).
Proof.
  intros ext environ. rewrite boot_calls. repeat split.
  - intros e ->. reflexivity.
  - intros tools -> Hkey. now rewrite (new_maps_server_absent ext environ Hkey).
  - intros tools k e -> Hkey Hconnect.
    now rewrite (new_maps_server_present ext environ k Hkey), Hconnect.
  - intros tools k u -> Hkey Hconnect.
    now rewrite (new_maps_server_present ext environ k Hkey), Hconnect.
  - intros p sdk request params e Hboot Hkey Hparams Hsdk.
    assert (Hp : Lifespan.stripe_api_key p = None).
    { destruct (Lifespan.StripeAgentToolkit ext _ Lifespan.configuration) as [e1 | tools];
        [ discriminate | ].
      destruct (Lifespan.new_maps_server ext environ) as [e2 | srv]; [ discriminate | ].
      destruct (Lifespan.connect ext srv) as [e3 | u]; [ discriminate | ].
      injection Hboot as <-. exact Hkey. }
    rewrite Hp. unfold Payment.post_create_payment_intent.
    rewrite create_payment_intent_returns.
    rewrite (try_create_sdk_raises sdk None request params e Hparams Hsdk).
    reflexivity.
Qed.

Lemma boot_key_handling_witness :
  Lifespan.getenv Lifespan.payment_key_only "GOOGLE_MAPS_API_KEY" = None /\
  Lifespan.boot Lifespan.lenient Lifespan.payment_key_only = inl Lifespan.sample_refusal /\
  Lifespan.getenv Lifespan.maps_key_only "GOOGLE_MAPS_API_KEY" = Some "AIza-maps" /\
  Lifespan.boot Lifespan.lenient Lifespan.maps_key_only =
    inr {| Lifespan.stripe_api_key := Lifespan.getenv Lifespan.maps_key_only "STRIPE_SECRET_KEY";
           Lifespan.stripe_agent_toolkit :=
             [FunctionTool "create_payment_link"; FunctionTool "create_product";
              FunctionTool "create_price"];
           Lifespan.maps_server :=
             Some (Lifespan.maps_server_arguments Lifespan.maps_key_only) |}.
Proof.
  assert (Habsent : Lifespan.getenv Lifespan.payment_key_only "GOOGLE_MAPS_API_KEY" = None)
    by reflexivity.
  assert (Hpresent : Lifespan.getenv Lifespan.maps_key_only "GOOGLE_MAPS_API_KEY" =
                     Some "AIza-maps") by reflexivity.
  split; [ exact Habsent | ]. split; [ | split; [ exact Hpresent | ] ].
  - exact (proj1 (proj2 (boot_key_handling Lifespan.lenient Lifespan.payment_key_only))
             _ eq_refl Habsent).
  - exact (proj1 (proj2 (proj2 (proj2 (boot_key_handling Lifespan.lenient
                                         Lifespan.maps_key_only))))
             _ "AIza-maps" tt eq_refl Hpresent eq_refl).
Defined.

(** C8 as stated fails when the server cannot be constructed: without the
    maps key two start-ups each call the constructor, each fails, and no
    initialization occurs; the handle stays unset. *)
Lemma absent_maps_key_race_counterexample :
  Lifespan.getenv Lifespan.payment_key_only "GOOGLE_MAPS_API_KEY" = None /\
  Lifespan.coroutines Lifespan.unkeyed_race =
    [Lifespan.Failed Lifespan.sample_refusal; Lifespan.Failed Lifespan.sample_refusal] /\
  Lifespan.attempts Lifespan.unkeyed_race = 2%nat /\
  Lifespan.constructed Lifespan.unkeyed_race = 0%nat /\
  Lifespan.connects Lifespan.unkeyed_race = 0%nat /\
  Lifespan.server Lifespan.unkeyed_race = None.
Proof. repeat split. Qed.

(** C8, as the code has it.  However the moves of any number of start-ups
    interleave: no two start-ups are in the guarded section together; the
    handle is set at most once and [connect] is called at most once, after
    the handle is set.  When the server can be constructed, the constructor
    is called only to set the handle, and a start-up that is past the guarded
    section finds the server constructed once, the handle set to it and
    [connect] called once, a failed start-up being the one whose [connect]
    raised.  When the constructor raises, the handle stays unset, nothing is
    connected, every start-up past the guarded section has failed with the
    constructor's exception, and the constructor was called once for each. *)
Theorem maps_server_initialized_once :
  forall (ext : Lifespan.externals) (environ : gmap string string)
         (n : nat) (schedule : list nat),
    let s := Lifespan.run ext environ schedule (Lifespan.initial n) in
    ((Lifespan.constructed s <= 1)%nat /\
     (Lifespan.connects s <= Lifespan.constructed s)%nat) /\
    (forall i j p q,
        Lifespan.coroutines s !! i = Some p -> Lifespan.coroutines s !! j = Some q ->
        Lifespan.critical p = true -> Lifespan.critical q = true -> i = j) /\
    (forall srv,
        Lifespan.new_maps_server ext environ = inr srv ->
        Lifespan.attempts s = Lifespan.constructed s /\
        forall i p,
          Lifespan.coroutines s !! i = Some p -> Lifespan.started p = true ->
          Lifespan.server s = Some srv /\
          Lifespan.attempts s = 1%nat /\
          Lifespan.constructed s = 1%nat /\
          Lifespan.connects s = 1%nat /\
          forall e, p = Lifespan.Failed e -> Lifespan.connect ext srv = inl e) /\
    (forall e,
        Lifespan.new_maps_server ext environ = inl e ->
        Lifespan.server s = None /\
        Lifespan.constructed s = 0%nat /\
        Lifespan.connects s = 0%nat /\
        Lifespan.attempts s = Lifespan.count_failed (Lifespan.coroutines s) /\
        forall i p,
          Lifespan.coroutines s !! i = Some p -> Lifespan.started p = true ->
          p = Lifespan.Failed e).
Proof.
  intros ext environ n schedule s.
  assert (Hinv : Lifespan.invariant ext environ s).
  { apply run_invariant, initial_invariant. }
  pose proof (Lifespan.inv_count ext environ s Hinv) as Hcount.
  pose proof (Lifespan.inv_connects ext environ s Hinv) as Hconn.
  split; [ | split; [ | split ] ].
  - split; [ | exact Hconn ]. rewrite Hcount. destruct (Lifespan.server s); lia.
  - intros i j p q Hi Hj Hp Hq. exact (holder_unique ext environ s i j p q Hinv Hi Hj Hp Hq).
  - intros srv Hnew.
    pose proof (Lifespan.inv_attempts ext environ s Hinv srv Hnew) as Hatt.
    split; [ exact Hatt | ]. intros i p Hi Hp.
    assert (Hset : Lifespan.constructed s = 1%nat /\ Lifespan.connects s = 1%nat /\
                   forall e, p = Lifespan.Failed e -> Lifespan.connect ext srv = inl e).
    { destruct p as [ | | | | | e]; try discriminate.
      - destruct (Lifespan.inv_serving ext environ s Hinv i _ Hi (or_introl eq_refl)).
        repeat split; try assumption. discriminate.
      - destruct (Lifespan.inv_serving ext environ s Hinv i _ Hi (or_intror eq_refl)).
        repeat split; try assumption. discriminate.
      - destruct (Lifespan.inv_failed ext environ s Hinv i e Hi)
          as [Hleft | (srv' & Hsrv' & Hconnect & Hone)]; [ congruence | ].
        pose proof (Lifespan.inv_server ext environ s Hinv srv' Hsrv') as Hsame.
        assert (srv' = srv) as -> by congruence.
        rewrite Hsrv' in Hcount. repeat split; try assumption.
        intros e' [= <-]. exact Hconnect. }
    destruct Hset as (Hc1 & Hn1 & Hfail).
    assert (Hsrv : Lifespan.server s = Some srv).
    { destruct (Lifespan.server s) as [srv' | ] eqn:Hs; [ | lia ].
      pose proof (Lifespan.inv_server ext environ s Hinv srv' Hs). congruence. }
    repeat split; try assumption. lia.
  - intros e Hnew.
    assert (Hnone : Lifespan.server s = None).
    { destruct (Lifespan.server s) as [srv' | ] eqn:Hs; [ | reflexivity ].
      pose proof (Lifespan.inv_server ext environ s Hinv srv' Hs). congruence. }
    rewrite Hnone in Hcount.
    split; [ exact Hnone | ]. split; [ exact Hcount | ]. split; [ lia | ].
    split; [ exact (Lifespan.inv_attempts_failed ext environ s Hinv e Hnew) | ].
    intros i p Hi Hp. destruct p as [ | | | | | e']; try discriminate.
    + destruct (Lifespan.inv_serving ext environ s Hinv i _ Hi (or_introl eq_refl)). lia.
    + destruct (Lifespan.inv_serving ext environ s Hinv i _ Hi (or_intror eq_refl)). lia.
    + destruct (Lifespan.inv_failed ext environ s Hinv i e' Hi)
        as [Hleft | (srv' & Hsrv' & _)]; congruence.
Qed.

Lemma maps_server_initialized_once_witness :
  Lifespan.new_maps_server Lifespan.lenient Lifespan.maps_key_only =
    inr Lifespan.sample_server /\
  Lifespan.coroutines (Lifespan.run Lifespan.lenient Lifespan.maps_key_only
                                    Lifespan.racing_schedule (Lifespan.initial 3))
    !! 0%nat = Some Lifespan.Serving /\
  (Lifespan.server (Lifespan.run Lifespan.lenient Lifespan.maps_key_only
                                 Lifespan.racing_schedule (Lifespan.initial 3))
     = Some Lifespan.sample_server /\
   Lifespan.connects (Lifespan.run Lifespan.lenient Lifespan.maps_key_only
                                   Lifespan.racing_schedule (Lifespan.initial 3))
     = 1%nat) /\
  Lifespan.new_maps_server Lifespan.lenient Lifespan.payment_key_only =
    inl Lifespan.sample_refusal /\
  (Lifespan.server Lifespan.unkeyed_race = None /\
   Lifespan.attempts Lifespan.unkeyed_race =
     Lifespan.count_failed (Lifespan.coroutines Lifespan.unkeyed_race)).
Proof.
  assert (Hnew : Lifespan.new_maps_server Lifespan.lenient Lifespan.maps_key_only =
                 inr Lifespan.sample_server) by reflexivity.
  assert (Hno : Lifespan.new_maps_server Lifespan.lenient Lifespan.payment_key_only =
                inl Lifespan.sample_refusal) by reflexivity.
  split; [ exact Hnew | ]. split; [ reflexivity | ]. split; [ | split; [ exact Hno | ] ].
  - destruct (maps_server_initialized_once Lifespan.lenient Lifespan.maps_key_only 3
                Lifespan.racing_schedule) as (_ & _ & Hok & _).
    destruct (Hok Lifespan.sample_server Hnew) as [_ Hstarted].
    destruct (Hstarted 0%nat Lifespan.Serving eq_refl eq_refl) as (Hs & _ & _ & Hc & _).
    split; [ exact Hs | exact Hc ].
  - destruct (maps_server_initialized_once Lifespan.lenient Lifespan.payment_key_only 2
                [0; 0; 1; 1]%nat) as (_ & _ & _ & Hrefused).
    destruct (Hrefused Lifespan.sample_refusal Hno) as (Hs & _ & _ & Ha & _).
    split; [ exact Hs | exact Ha ].
Defined.

(** At the end of the race each start-up serves, and the server was
    constructed and connected once. *)
Example race_of_three :
  let s := Lifespan.run Lifespan.lenient Lifespan.maps_key_only
                        Lifespan.racing_schedule (Lifespan.initial 3) in
  Lifespan.coroutines s = [Lifespan.Serving; Lifespan.Serving; Lifespan.Serving] /\
  Lifespan.attempts s = 1%nat /\ Lifespan.constructed s = 1%nat /\
  Lifespan.connects s = 1%nat /\ Lifespan.lock s = None.
Proof. vm_compute. repeat split. Qed.

(** When [connect] raises in the race, the start-up that constructed the
    server fails and the two others serve with the server it left. *)
Example race_of_three_failing :
  let s := Lifespan.run Lifespan.failing Lifespan.maps_key_only
                        Lifespan.racing_schedule (Lifespan.initial 3) in
  Lifespan.coroutines s =
    [Lifespan.Serving;
     Lifespan.Failed (PyException "McpError" "Connection closed");
     Lifespan.Serving] /\
  Lifespan.server s = Some Lifespan.sample_server /\
  Lifespan.connects s = 1%nat.
Proof. vm_compute. repeat split. Qed.


(** ** The payments instructions *)

(** The one priced example the instructions give, for Paris, has the package
    at the sum of flight and hotel less ten per cent, and its flight and
    hotel within the ranges the instructions name.  The items of a run are
    written by the language model the instructions are sent to; no function
    of the program computes them. *)
Example paris_example_discount :
  Samples.paris_package =
    Samples.paris_flight + Samples.paris_hotel
    - Samples.paris_discount_percent * (Samples.paris_flight + Samples.paris_hotel) / 100 /\
  350 <= Samples.paris_flight <= 600 /\
  3 * 150 <= Samples.paris_hotel <= 3 * 400.
Proof. vm_compute. repeat split; discriminate. Qed.

(** * Further properties *)

(** ** The submitted amount *)

Lemma all_from_true (n : nat) (from : Z) (check : Z -> bool) (c : Z) :
  Payment.all_from n from check = true ->
  from <= c < from + Z.of_nat n ->
  check c = true.
Proof.
  revert from. induction n as [ | k IH]; intros from Hall Hc; [ lia | ].
  cbn [Payment.all_from] in Hall. apply andb_prop in Hall as [Hfrom Hrest].
  destruct (Z.eq_dec c from) as [-> | Hne]; [ exact Hfrom | ].
  apply (IH (from + 1) Hrest). lia.
Qed.

(** For every amount from 0.00 to 999.99 the handler submits the number of
    hundredths or one less: truncation never overcharges and never loses
    more than one minor unit. *)
Theorem submitted_within_one_unit :
  forall c : Z,
    0 <= c < 100000 ->
    exists n, Payment.submitted_amount (Payment.request_of_cents c) = Some n /\ c - 1 <= n <= c.
Proof.
  assert (Hall : Payment.all_from (Z.to_nat 100000) 0 Payment.within_one_unit = true)
    by (vm_compute; reflexivity).
  intros c Hc.
  assert (Hone : Payment.within_one_unit c = true).
  { apply (all_from_true _ _ _ c Hall). lia. }
  unfold Payment.within_one_unit in Hone.
  destruct (Payment.submitted_amount (Payment.request_of_cents c)) as [n | ]; [ | discriminate ].
  exists n. split; [ reflexivity | ].
  apply orb_prop in Hone as [Heq | Heq]; apply Z.eqb_eq in Heq; lia.
Qed.

Lemma submitted_within_one_unit_witness :
  0 <= 1999 < 100000 /\
  exists n, Payment.submitted_amount (Payment.request_of_cents 1999) = Some n /\ 1999 - 1 <= n <= 1999.
Proof. split; [ lia | apply (submitted_within_one_unit 1999); lia ]. Defined.

(** Whole amounts from 0 to 9999 units are submitted exactly, as a hundred
    times the amount. *)
Theorem whole_units_submitted_exactly :
  forall n : Z,
    0 <= n < 10000 ->
    Payment.submitted_amount (Payment.request_of_cents (100 * n)) = Some (100 * n).
Proof.
  assert (Hall : Payment.all_from (Z.to_nat 10000) 0
                   (fun n => Payment.exact_units (100 * n)) = true)
    by (vm_compute; reflexivity).
  intros n Hn.
  assert (Hex : Payment.exact_units (100 * n) = true).
  { apply (all_from_true _ _ (fun n => Payment.exact_units (100 * n)) n Hall). lia. }
  unfold Payment.exact_units in Hex.
  destruct (Payment.submitted_amount (Payment.request_of_cents (100 * n))) as [m | ];
    [ | discriminate ].
  apply Z.eqb_eq in Hex. now subst.
Qed.

Lemma whole_units_submitted_exactly_witness :
  0 <= 350 < 10000 /\
  Payment.submitted_amount (Payment.request_of_cents (100 * 350)) = Some (100 * 350).
Proof. split; [ lia | apply (whole_units_submitted_exactly 350); lia ]. Defined.

(** When the amount cannot be converted, the provider is not called: the
    answer is the failure response with the conversion's error, whatever the
    SDK would have done. *)
Theorem unconvertible_amount_not_submitted :
  forall (sdk : Payment.stripe_sdk) (key : option string)
         (request : Payment.PaymentRequest) (e : exn),
    Payment.payment_intent_params request = inl e ->
    Payment.post_create_payment_intent sdk key request =
    mk_http_response 200 (Json (Payment.failure_response e)).
Proof.
  intros sdk key request e Hparams. unfold Payment.post_create_payment_intent.
  rewrite create_payment_intent_returns. unfold Payment.try_create. rewrite Hparams.
  reflexivity.
Qed.

Lemma unconvertible_amount_not_submitted_witness :
  Payment.payment_intent_params Payment.request_overflow =
    inl (PyException "OverflowError" "cannot convert float infinity to integer") /\
  Payment.post_create_payment_intent Payment.accepting_sdk (Some "sk_test")
                                     Payment.request_overflow =
    mk_http_response 200
      (Json {| Payment.success := false; Payment.payment_id := None;
               Payment.error := Some "cannot convert float infinity to integer" |}).
Proof.
  split; [ vm_compute; reflexivity | ].
  apply (unconvertible_amount_not_submitted Payment.accepting_sdk (Some "sk_test")
           Payment.request_overflow
           (PyException "OverflowError" "cannot convert float infinity to integer")).
  vm_compute. reflexivity.
Defined.

(** When the provider returns an intent, the answer is success with that
    intent's identifier; the provider was given the request's currency,
    payment method and description as they came, with immediate confirmation
    and the fixed return address. *)
Theorem created_intent_is_reported :
  forall (sdk : Payment.stripe_sdk) (key : option string) (request : Payment.PaymentRequest)
         (params : Payment.PaymentIntentParams) (intent : Payment.PaymentIntent),
    Payment.payment_intent_params request = inr params ->
    sdk key params = inr intent ->
    Payment.post_create_payment_intent sdk key request =
      mk_http_response 200
        (Json {| Payment.success := true;
                 Payment.payment_id := Some (Payment.id intent);
                 Payment.error := None |}) /\
    Payment.pi_currency params = Payment.currency request /\
    Payment.pi_payment_method params = Payment.payment_method request /\
    Payment.pi_description params = Payment.description request /\
    Payment.pi_confirm params = true /\
    Payment.pi_return_url params = "https://your-domain.com/payment-success".
Proof.
  intros sdk key request params intent Hparams Hsdk. split.
  - unfold Payment.post_create_payment_intent. rewrite create_payment_intent_returns.
    unfold Payment.try_create. rewrite Hparams. cbn. rewrite Hsdk. reflexivity.
  - unfold Payment.payment_intent_params in Hparams.
    destruct (python_int _) as [e | cents]; cbn in Hparams; [ discriminate | ].
    injection Hparams as <-. cbn. repeat split.
Qed.

Lemma created_intent_is_reported_witness :
  Payment.payment_intent_params Payment.request_10 =
    inr {| Payment.pi_amount := 1000; Payment.pi_currency := "mxn";
           Payment.pi_payment_method := "pm_card_visa";
           Payment.pi_description := "Hotel en Roma";
           Payment.pi_confirm := true;
           Payment.pi_return_url := "https://your-domain.com/payment-success" |} /\
  Payment.post_create_payment_intent Payment.accepting_sdk (Some "sk_test") Payment.request_10 =
    mk_http_response 200
      (Json {| Payment.success := true; Payment.payment_id := Some "pi_42";
               Payment.error := None |}).
Proof.
  assert (Hparams : Payment.payment_intent_params Payment.request_10 =
    inr {| Payment.pi_amount := 1000; Payment.pi_currency := "mxn";
           Payment.pi_payment_method := "pm_card_visa";
           Payment.pi_description := "Hotel en Roma";
           Payment.pi_confirm := true;
           Payment.pi_return_url := "https://your-domain.com/payment-success" |})
    by (vm_compute; reflexivity).
  split; [ exact Hparams | ].
  exact (proj1 (created_intent_is_reported Payment.accepting_sdk (Some "sk_test")
                  Payment.request_10 _ {| Payment.id := "pi_42" |} Hparams eq_refl)).
Defined.

(** ** The conversation context, further *)

Lemma join_app (a b : list string) : Query.join (a ++ b) = Query.join a +:+ Query.join b.
Proof.
  induction a as [ | x a IH]; [ reflexivity | ].
  cbn [app Query.join fold_right]. fold (Query.join (a ++ b)). fold (Query.join a).
  rewrite IH. now rewrite append_assoc.
Qed.

Lemma length_append (a b : string) :
  String.length (a +:+ b) = (String.length a + String.length b)%nat.
Proof.
  induction a as [ | c a IH]; [ reflexivity | ].
  rewrite append_cons. cbn [String.length]. now rewrite IH.
Qed.

Lemma context_of_cons (msg : Query.ConversationMessage) (rest : list Query.ConversationMessage) :
  Query.conversation_context (msg :: rest) =
  Query.context_header +:+ Query.join (map Query.format_message (msg :: rest)).
Proof. unfold Query.conversation_context. apply fold_format. Qed.

(** The context is the empty string exactly when the history is empty. *)
Theorem context_empty_iff_no_history :
  forall history : list Query.ConversationMessage,
    Query.conversation_context history = EmptyString <-> history = [].
Proof.
  intros history. split.
  - destruct history as [ | msg rest]; [ reflexivity | ].
    rewrite context_of_cons. unfold Query.context_header, Query.newline.
    rewrite !append_cons. discriminate.
  - intros ->. reflexivity.
Qed.

Lemma context_empty_iff_no_history_witness :
  Query.conversation_context [] = EmptyString /\ ([] : list Query.ConversationMessage) = [].
Proof.
  split; [ | reflexivity ].
  apply (proj2 (context_empty_iff_no_history [])). reflexivity.
Defined.

(** Later messages only add to the end: the context of a history continued
    by further messages is the context of the history followed by the
    formatted further messages. *)
Theorem context_of_longer_history :
  forall earlier later : list Query.ConversationMessage,
    earlier <> [] ->
    Query.conversation_context (earlier ++ later) =
    Query.conversation_context earlier +:+ Query.join (map Query.format_message later).
Proof.
  intros [ | msg rest] later Hne; [ contradiction | ].
  change ((msg :: rest) ++ later) with (msg :: (rest ++ later)).
  rewrite !context_of_cons.
  change (msg :: rest ++ later) with ((msg :: rest) ++ later).
  rewrite map_app, join_app. now rewrite append_assoc.
Qed.

Lemma context_of_longer_history_witness :
  [Samples.hola] <> [] /\
  Query.conversation_context ([Samples.hola] ++ [Samples.adios]) =
  Query.conversation_context [Samples.hola] +:+
  Query.join (map Query.format_message [Samples.adios]).
Proof.
  assert (Hne : [Samples.hola] <> []) by discriminate.
  split; [ exact Hne | ].
  exact (context_of_longer_history [Samples.hola] [Samples.adios] Hne).
Defined.

(** The size of the context: 24 characters of header, and for each message
    its role, its content and three characters more. *)
Theorem context_length :
  forall history : list Query.ConversationMessage,
    history <> [] ->
    String.length (Query.conversation_context history) =
    (24 + list_sum (map (fun msg => String.length (Query.role msg)
                                    + String.length (Query.content msg) + 3)
                        history))%nat.
Proof.
  intros [ | msg rest] Hne; [ contradiction | ].
  rewrite context_of_cons, length_append.
  change (String.length Query.context_header) with 24%nat. f_equal.
  generalize (msg :: rest). clear. intros history.
  induction history as [ | msg rest IH]; [ reflexivity | ].
  cbn [map Query.join fold_right]. fold (Query.join (map Query.format_message rest)).
  rewrite length_append, IH. unfold Query.format_message.
  rewrite !length_append.
  change (list_sum (?x :: ?l)) with (x + list_sum l)%nat.
  change (String.length ": ") with 2%nat.
  change (String.length Query.newline) with 1%nat. lia.
Qed.

Lemma context_length_witness :
  [Samples.hola; Samples.adios] <> [] /\
  String.length (Query.conversation_context [Samples.hola; Samples.adios]) = 52%nat.
Proof.
  assert (Hne : [Samples.hola; Samples.adios] <> []) by discriminate.
  split; [ exact Hne | ].
  exact (context_length [Samples.hola; Samples.adios] Hne).
Defined.

(** ** Validation of the request body *)

Lemma validate_messages_to_json (history : list Query.ConversationMessage) :
  Query.validate_messages (map Query.ConversationMessage_to_json history) = Some history.
Proof.
  induction history as [ | [r c] rest IH]; [ reflexivity | ].
  cbn [map Query.validate_messages]. rewrite IH. reflexivity.
Qed.

(** Writing a query as a body and validating the body gives the query back:
    every [ChatQuery] is the validation of some body. *)
Theorem validate_written_query :
  forall q : Query.ChatQuery,
    Query.validate_ChatQuery (Query.ChatQuery_to_json q) = Some q.
Proof.
  intros [text history cid].
  unfold Query.ChatQuery_to_json, Query.validate_ChatQuery, Query.required_str,
    Query.validate_history, Query.validate_conversation_id.
  cbn [Query.query Query.history Query.conversation_id].
  destruct cid as [s | ]; cbn; rewrite validate_messages_to_json; reflexivity.
Qed.

Lemma validate_messages_entries (items : list Query.json) (msgs : list Query.ConversationMessage) :
  Query.validate_messages items = Some msgs ->
  length msgs = length items /\
  forall i msg, msgs !! i = Some msg ->
                exists j, items !! i = Some j /\ Query.validate_ConversationMessage j = Some msg.
Proof.
  revert msgs. induction items as [ | j rest IH]; intros msgs Hv.
  - injection Hv as <-. split; [ reflexivity | ]. intros i msg Hi. discriminate.
  - cbn [Query.validate_messages] in Hv.
    destruct (Query.validate_ConversationMessage j) as [m | ] eqn:Hj; [ | discriminate ].
    destruct (Query.validate_messages rest) as [ms | ] eqn:Hrest; [ | discriminate ].
    injection Hv as <-. destruct (IH ms eq_refl) as [Hlen Hentries].
    split; [ cbn; now rewrite Hlen | ].
    intros [ | i] msg Hi.
    + injection Hi as <-. exists j. auto.
    + exact (Hentries i msg Hi).
Qed.

Lemma validate_messages_invalid (items : list Query.json) (j : Query.json) :
  In j items -> Query.validate_ConversationMessage j = None ->
  Query.validate_messages items = None.
Proof.
  induction items as [ | k rest IH]; intros Hin Hj; [ contradiction | ].
  cbn [Query.validate_messages]. destruct Hin as [-> | Hin].
  - rewrite Hj. reflexivity.
  - rewrite (IH Hin Hj). destruct (Query.validate_ConversationMessage k); reflexivity.
Qed.

(** Validation keeps the history as the body has it: as many messages as
    entries, the i-th message being the validation of the i-th entry; and a
    body without [history] validates to the empty history. *)
Theorem validated_history_in_order :
  forall (members : list (string * Query.json)) (q : Query.ChatQuery),
    Query.validate_ChatQuery (Query.JObject members) = Some q ->
    (Query.member "history" members = None -> Query.history q = []) /\
    (forall items,
        Query.member "history" members = Some (Query.JArray items) ->
        length (Query.history q) = length items /\
        forall i msg, Query.history q !! i = Some msg ->
                      exists j, items !! i = Some j /\
                                Query.validate_ConversationMessage j = Some msg).
Proof.
  intros members q. unfold Query.validate_ChatQuery, Query.validate_history.
  destruct (Query.required_str "query" members) as [text | ]; [ | discriminate ].
  destruct (Query.member "history" members) as [h | ] eqn:Hh.
  - destruct h as [ | | | | items | ]; try discriminate.
    destruct (Query.validate_messages items) as [msgs | ] eqn:Hmsgs; [ | discriminate ].
    destruct (Query.validate_conversation_id members) as [cid | ]; [ | discriminate ].
    intros [= <-]. cbn [Query.history]. split; [ discriminate | ].
    intros items' [= <-]. exact (validate_messages_entries items msgs Hmsgs).
  - destruct (Query.validate_conversation_id members) as [cid | ]; [ | discriminate ].
    intros [= <-]. cbn [Query.history]. split; [ reflexivity | discriminate ].
Qed.

Lemma validated_history_in_order_witness :
  Query.validate_ChatQuery (Query.ChatQuery_to_json Samples.follow_up_query) =
    Some Samples.follow_up_query /\
  length (Query.history Samples.follow_up_query) = 2%nat.
Proof.
  assert (Hq : Query.validate_ChatQuery (Query.ChatQuery_to_json Samples.follow_up_query) =
               Some Samples.follow_up_query) by reflexivity.
  split; [ exact Hq | ].
  exact (proj1 (proj2 (validated_history_in_order _ _ Hq)
                  (map Query.ConversationMessage_to_json [Samples.hola; Samples.adios])
                  eq_refl)).
Defined.

(** One history entry that does not validate rejects the whole body: the
    answer is status 422 and no call is made, whatever the other fields
    hold. *)
Theorem invalid_history_entry_rejected :
  forall (P : Query.prompts) (rt : Query.runtime) (members : list (string * Query.json))
         (items : list Query.json) (j : Query.json) (calls : list Query.event),
    Query.member "history" members = Some (Query.JArray items) ->
    In j items ->
    Query.validate_ConversationMessage j = None ->
    Query.post_query P rt (Query.JObject members) calls =
    (mk_http_response 422 ValidationErrors, calls).
Proof.
  intros P rt members items j calls Hh Hin Hj.
  unfold Query.post_query, Query.validate_ChatQuery, Query.validate_history.
  rewrite Hh, (validate_messages_invalid items j Hin Hj).
  destruct (Query.required_str "query" members); reflexivity.
Qed.

Lemma invalid_history_entry_rejected_witness :
  Query.post_query Samples.sample_prompts Samples.scripted Samples.broken_history_body [] =
  (mk_http_response 422 ValidationErrors, []).
Proof.
  apply (invalid_history_entry_rejected Samples.sample_prompts Samples.scripted _
           [Query.JObject [("role", Query.JString "user"); ("content", Query.JString "hola")];
            Query.JObject [("role", Query.JString "assistant")]]
           (Query.JObject [("role", Query.JString "assistant")])).
  - reflexivity.
  - right. left. reflexivity.
  - reflexivity.
Defined.

(** ** The calls of a request *)

(** When the orchestrator run raises, the synthesizer is not run, the trace
    is left all the same, and the answer is status 500. *)
Theorem orchestrator_failure_skips_synthesizer :
  forall (P : Query.prompts) (rt : Query.runtime) (q : Query.ChatQuery)
         (calls : list Query.event) (tid : string) (e : exn),
    Query.gen_trace_id rt calls = inr tid ->
    Query.Runner_run rt (Query.calls_at_orchestrator calls tid)
                     (Query.orchestrator_for P rt q) (Query.InputText (Query.query q)) = inl e ->
    Query.process_query P rt q calls =
    (HTTPException 500 (str e),
     calls ++ [Query.GenTraceId;
               Query.TraceEnter "Travel Assistant API" tid;
               Query.RunnerRun (Query.orchestrator_for P rt q) (Query.InputText (Query.query q));
               Query.TraceExit]).
Proof.
  intros P rt q calls tid e Htid Ho.
  rewrite process_query_cases, try_process_query_calls, Htid, Ho. cbn [fst snd].
  unfold Query.calls_at_synthesizer, Query.calls_at_orchestrator.
  rewrite <- !app_assoc. reflexivity.
Qed.

Lemma orchestrator_failure_skips_synthesizer_witness :
  Query.process_query Samples.sample_prompts Samples.unreachable Samples.roma_query [] =
  (HTTPException 500 "Connection error.",
   [Query.GenTraceId;
    Query.TraceEnter "Travel Assistant API" "trace_0002";
    Query.RunnerRun (Query.orchestrator_for Samples.sample_prompts Samples.unreachable
                                            Samples.roma_query)
                    (Query.InputText "quiero reservar un viaje a Roma");
    Query.TraceExit]).
Proof.
  apply (orchestrator_failure_skips_synthesizer Samples.sample_prompts Samples.unreachable
           Samples.roma_query [] "trace_0002"
           (PyException "APIConnectionError" "Connection error.")); reflexivity.
Defined.

(** When the orchestrator has run, a synthesizer run that raises, or a final
    output the Response model refuses, is answered with status 500 after both
    runs were made and the trace was left; the detail is the text of the
    exception, for a refused output the text of the validation error. *)
Theorem failure_after_orchestrator :
  forall (P : Query.prompts) (rt : Query.runtime) (q : Query.ChatQuery)
         (calls : list Query.event) (tid : string) (o : Query.RunResult),
    Query.gen_trace_id rt calls = inr tid ->
    Query.Runner_run rt (Query.calls_at_orchestrator calls tid)
                     (Query.orchestrator_for P rt q) (Query.InputText (Query.query q)) = inr o ->
    let made :=
      calls ++ [Query.GenTraceId;
                Query.TraceEnter "Travel Assistant API" tid;
                Query.RunnerRun (Query.orchestrator_for P rt q) (Query.InputText (Query.query q));
                Query.RunnerRun (Query.synthesizer_for P q)
                                (Query.InputList (Query.to_input_list o));
                Query.TraceExit] in
    (forall e,
        Query.Runner_run rt (Query.calls_at_synthesizer P rt calls tid q)
                         (Query.synthesizer_for P q)
                         (Query.InputList (Query.to_input_list o)) = inl e ->
        Query.process_query P rt q calls = (HTTPException 500 (str e), made)) /\
    (forall s,
        Query.Runner_run rt (Query.calls_at_synthesizer P rt calls tid q)
                         (Query.synthesizer_for P q)
                         (Query.InputList (Query.to_input_list o)) = inr s ->
        forall message,
          Query.final_output s = Query.PyRefused message ->
          Query.process_query P rt q calls = (HTTPException 500 message, made)).
Proof.
  intros P rt q calls tid o Htid Ho made.
  assert (Hmade : Query.calls_of_request P rt calls tid q o = made).
  { unfold made, Query.calls_of_request, Query.calls_at_synthesizer, Query.calls_at_orchestrator.
    rewrite <- !app_assoc. reflexivity. }
  split.
  - intros e Hs.
    rewrite process_query_cases, try_process_query_calls, Htid, Ho, Hs. cbn [fst snd].
    now rewrite Hmade.
  - intros s Hs message Hout.
    rewrite process_query_cases, try_process_query_calls, Htid, Ho, Hs, Hout. cbn [fst snd].
    now rewrite Hmade.
Qed.

Lemma failure_after_orchestrator_witness :
  Query.process_query Samples.sample_prompts Samples.synthesizer_down Samples.roma_query [] =
  (HTTPException 500 "Connection error.",
   [Query.GenTraceId;
    Query.TraceEnter "Travel Assistant API" "trace_0003";
    Query.RunnerRun (Query.orchestrator_for Samples.sample_prompts Samples.synthesizer_down
                                            Samples.roma_query)
                    (Query.InputText "quiero reservar un viaje a Roma");
    Query.RunnerRun (Query.synthesizer_for Samples.sample_prompts Samples.roma_query)
                    (Query.InputList (Query.to_input_list Samples.orchestrator_output));
    Query.TraceExit]) /\
  Query.process_query Samples.sample_prompts Samples.synthesizer_refused Samples.roma_query [] =
  (HTTPException 500 "1 validation error for Response",
   [Query.GenTraceId;
    Query.TraceEnter "Travel Assistant API" "trace_0004";
    Query.RunnerRun (Query.orchestrator_for Samples.sample_prompts Samples.synthesizer_refused
                                            Samples.roma_query)
                    (Query.InputText "quiero reservar un viaje a Roma");
    Query.RunnerRun (Query.synthesizer_for Samples.sample_prompts Samples.roma_query)
                    (Query.InputList (Query.to_input_list Samples.orchestrator_output));
    Query.TraceExit]).
Proof.
  split.
  - apply (proj1 (failure_after_orchestrator Samples.sample_prompts Samples.synthesizer_down
                    Samples.roma_query [] "trace_0003" Samples.orchestrator_output
                    eq_refl eq_refl)
             (PyException "APIConnectionError" "Connection error.")).
    reflexivity.
  - apply (proj2 (failure_after_orchestrator Samples.sample_prompts Samples.synthesizer_refused
                    Samples.roma_query [] "trace_0004" Samples.orchestrator_output
                    eq_refl eq_refl)
             {| Query.new_items := [];
                Query.final_output := Query.PyRefused "1 validation error for Response";
                Query.to_input_list := [] |}); reflexivity.
Defined.

(** Whatever the library answers, a request keeps the calls made before it
    and adds its own: one call for the trace identifier, at most one trace,
    left as often as it is entered, and at most two runs. *)
Theorem calls_of_any_request :
  forall (P : Query.prompts) (rt : Query.runtime) (q : Query.ChatQuery)
         (calls : list Query.event),
  exists made,
    snd (Query.process_query P rt q calls) = calls ++ made /\
    Query.count_events Query.is_GenTraceId made = 1%nat /\
    (Query.count_events Query.is_TraceEnter made <= 1)%nat /\
    Query.count_events Query.is_TraceExit made = Query.count_events Query.is_TraceEnter made /\
    (Query.count_events Query.is_RunnerRun made <= 2)%nat.
Proof.
  intros P rt q calls.
  rewrite process_query_cases, try_process_query_calls. cbn [snd].
  unfold Query.calls_of_request, Query.calls_at_synthesizer, Query.calls_at_orchestrator.
  destruct (Query.gen_trace_id rt calls) as [e | tid]; cbn [snd].
  - eexists. split; [ reflexivity | ]. vm_compute. lia.
  - destruct (Query.Runner_run rt _ (Query.orchestrator_for P rt q) _) as [e | o]; cbn [snd].
    + rewrite <- !app_assoc. eexists. split; [ reflexivity | ]. vm_compute. lia.
    + destruct (Query.Runner_run rt _ (Query.synthesizer_for P q) _) as [e | s]; cbn [snd];
        rewrite <- !app_assoc; eexists; (split; [ reflexivity | ]); vm_compute; lia.
Qed.

(** ** Start-up, further *)

(** A start-up that finds or leaves the handle set is never repeated: a later
    start-up, also one after a shut-down, constructs nothing, calls no
    [connect] and reports success.  When the constructor returns a server the
    handle is set to it, whether [connect] raises or not.  When the
    constructor raises, the start-up raises its exception and leaves the
    handle unset, so that the next start-up constructs again and fails
    alike. *)
Theorem startup_runs_once :
  forall (ext later ending : Lifespan.externals) (environ : gmap string string)
         (p : Lifespan.process),
    let p1 := snd (Lifespan.startup ext environ p) in
    (forall srv environ',
        Lifespan.maps_server p1 = Some srv ->
        Lifespan.startup later environ' p1 = (inr tt, p1) /\
        Lifespan.startup later environ' (Lifespan.shutdown ending p1) = (inr tt, p1)) /\
    (forall srv,
        Lifespan.maps_server p = None ->
        Lifespan.new_maps_server ext environ = inr srv ->
        Lifespan.maps_server p1 = Some srv /\
        fst (Lifespan.startup ext environ p) = Lifespan.connect ext srv) /\
    (forall e,
        Lifespan.maps_server p = None ->
        Lifespan.new_maps_server ext environ = inl e ->
        Lifespan.startup ext environ p = (inl e, p) /\
        Lifespan.startup ext environ p1 = (inl e, p1)).
Proof.
  intros ext later ending environ p p1. split; [ | split ].
  - intros srv environ' Hsrv.
    assert (Hagain : Lifespan.startup later environ' p1 = (inr tt, p1)).
    { unfold Lifespan.startup at 1. rewrite Hsrv. reflexivity. }
    split; [ exact Hagain | ].
    unfold Lifespan.shutdown. rewrite Hsrv.
    destruct (Lifespan.disconnect ending srv); exact Hagain.
  - intros srv Hp Hnew. unfold p1, Lifespan.startup. rewrite Hp, Hnew. split; reflexivity.
  - intros e Hp Hnew.
    assert (Hfirst : Lifespan.startup ext environ p = (inl e, p)).
    { unfold Lifespan.startup. rewrite Hp, Hnew. reflexivity. }
    split; [ exact Hfirst | ]. unfold p1. rewrite Hfirst. exact Hfirst.
Qed.

Lemma startup_runs_once_witness :
  Lifespan.maps_server (Lifespan.imported None) = None /\
  Lifespan.new_maps_server Lifespan.failing Lifespan.maps_key_only =
    inr Lifespan.sample_server /\
  Lifespan.maps_server (snd (Lifespan.startup Lifespan.failing Lifespan.maps_key_only
                                              (Lifespan.imported None))) =
    Some Lifespan.sample_server /\
  Lifespan.startup Lifespan.lenient Lifespan.payment_key_only
    (snd (Lifespan.startup Lifespan.failing Lifespan.maps_key_only (Lifespan.imported None))) =
  (inr tt, snd (Lifespan.startup Lifespan.failing Lifespan.maps_key_only
                                 (Lifespan.imported None))).
Proof.
  assert (Hp : Lifespan.maps_server (Lifespan.imported None) = None) by reflexivity.
  assert (Hnew : Lifespan.new_maps_server Lifespan.failing Lifespan.maps_key_only =
                 inr Lifespan.sample_server) by reflexivity.
  destruct (startup_runs_once Lifespan.failing Lifespan.lenient Lifespan.lenient
              Lifespan.maps_key_only (Lifespan.imported None)) as (Hlater & Hset & _).
  destruct (Hset Lifespan.sample_server Hp Hnew) as [Hsrv _].
  split; [ exact Hp | ]. split; [ exact Hnew | ]. split; [ exact Hsrv | ].
  exact (proj1 (Hlater Lifespan.sample_server Lifespan.payment_key_only Hsrv)).
Defined.

Section LockFacts.

Import Lifespan.

Variable ext : externals.
Variable environ : gmap string string.

(** A coroutine in the critical section, or before a free lock, moves. *)
Lemma step_moves (j : nat) (p : pc) (s : state) :
  coroutines s !! j = Some p ->
  critical p = true \/ (p = AtLock /\ lock s = None) ->
  coroutines (step ext environ j s) <> coroutines s.
Proof.
  intros Hj Hable.
  assert (Hnew : exists q, coroutines (step ext environ j s) !! j = Some q /\ q <> p).
  { unfold step. rewrite Hj.
    destruct p; destruct Hable as [Hc | [Hp Hl]]; try discriminate.
    - rewrite Hl. cbn [coroutines]. exists AtCheck.
      split; [ exact (lookup_goto_eq j _ _ s Hj) | discriminate ].
    - destruct (server s); [ | destruct (new_maps_server ext environ) ]; cbn [coroutines];
        eexists; (split; [ exact (lookup_goto_eq j _ _ s Hj) | discriminate ]).
    - cbn [coroutines]. eexists. split; [ exact (lookup_goto_eq j _ _ s Hj) | ].
      destruct (match server s with Some srv => connect ext srv | None => _ end); discriminate. }
  destruct Hnew as (q & Hq & Hne). intros Heq. rewrite Heq, Hj in Hq. congruence.
Qed.

(** Two moves of the lock's holder free the lock. *)
Lemma holder_frees_lock (i : nat) (s : state) :
  invariant ext environ s -> lock s = Some i ->
  lock (step ext environ i (step ext environ i s)) = None.
Proof.
  intros Hinv Hl. destruct (inv_held ext environ s Hinv i Hl) as (p & Hi & Hcrit).
  destruct p; try discriminate.
  - (* AtCheck *)
    unfold step at 2. rewrite Hi. destruct (server s) as [srv | ] eqn:Hsrv.
    + unfold step. cbn [coroutines lock]. rewrite (lookup_goto_eq i _ Serving s Hi). reflexivity.
    + destruct (new_maps_server ext environ) as [e | built].
      * unfold step. cbn [coroutines lock]. rewrite (lookup_goto_eq i _ (Failed e) s Hi).
        reflexivity.
      * unfold step. cbn [coroutines lock server].
        rewrite (lookup_goto_eq i _ AtConnect s Hi). reflexivity.
  - (* AtConnect *)
    unfold step at 2. rewrite Hi. unfold step. cbn [coroutines lock].
    rewrite (lookup_goto_eq i AtConnect _ s Hi).
    destruct (match server s with Some srv => connect ext srv | None => _ end); reflexivity.
Qed.

End LockFacts.

(** However the start-ups interleave, one that has not passed the guarded
    section is never stuck for good: some coroutine can move. *)
Theorem startup_never_deadlocks :
  forall (ext : Lifespan.externals) (environ : gmap string string)
         (n : nat) (schedule : list nat),
    let s := Lifespan.run ext environ schedule (Lifespan.initial n) in
    forall i p,
      Lifespan.coroutines s !! i = Some p -> Lifespan.started p = false ->
      exists j, Lifespan.coroutines (Lifespan.step ext environ j s) <> Lifespan.coroutines s.
Proof.
  intros ext environ n schedule s i p Hi Hp.
  assert (Hinv : Lifespan.invariant ext environ s).
  { apply run_invariant, initial_invariant. }
  destruct p; try discriminate.
  - destruct (Lifespan.lock s) as [owner | ] eqn:Hl.
    + destruct (Lifespan.inv_held ext environ s Hinv owner Hl) as (q & Hq & Hcrit).
      exists owner. apply (step_moves ext environ owner q s Hq). now left.
    + exists i. apply (step_moves ext environ i Lifespan.AtLock s Hi). now right.
  - exists i. apply (step_moves ext environ i Lifespan.AtCheck s Hi). now left.
  - exists i. apply (step_moves ext environ i Lifespan.AtConnect s Hi). now left.
Qed.

Lemma startup_never_deadlocks_witness :
  Lifespan.coroutines (Lifespan.run Lifespan.lenient Lifespan.maps_key_only [1; 0]%nat
                                    (Lifespan.initial 2)) !! 0%nat = Some Lifespan.AtLock /\
  exists j,
    Lifespan.coroutines
      (Lifespan.step Lifespan.lenient Lifespan.maps_key_only j
         (Lifespan.run Lifespan.lenient Lifespan.maps_key_only [1; 0]%nat (Lifespan.initial 2)))
    <> Lifespan.coroutines
         (Lifespan.run Lifespan.lenient Lifespan.maps_key_only [1; 0]%nat (Lifespan.initial 2)).
Proof.
  split; [ reflexivity | ].
  apply (startup_never_deadlocks Lifespan.lenient Lifespan.maps_key_only 2 [1; 0]%nat
           0%nat Lifespan.AtLock); reflexivity.
Defined.

(** However the start-ups interleave, the lock is held only by a start-up
    inside the guarded section, and two moves of the holder free it, also
    when the constructor or [connect] raises. *)
Theorem lock_released_by_holder :
  forall (ext : Lifespan.externals) (environ : gmap string string)
         (n : nat) (schedule : list nat) (i : nat),
    let s := Lifespan.run ext environ schedule (Lifespan.initial n) in
    Lifespan.lock s = Some i ->
    (exists p, Lifespan.coroutines s !! i = Some p /\ Lifespan.critical p = true) /\
    Lifespan.lock (Lifespan.step ext environ i (Lifespan.step ext environ i s)) = None.
Proof.
  intros ext environ n schedule i s Hl.
  assert (Hinv : Lifespan.invariant ext environ s).
  { apply run_invariant, initial_invariant. }
  split.
  - exact (Lifespan.inv_held ext environ s Hinv i Hl).
  - exact (holder_frees_lock ext environ i s Hinv Hl).
Qed.

Lemma lock_released_by_holder_witness :
  Lifespan.lock (Lifespan.run Lifespan.failing Lifespan.maps_key_only [1; 1]%nat
                              (Lifespan.initial 2)) = Some 1%nat /\
  Lifespan.lock
    (Lifespan.step Lifespan.failing Lifespan.maps_key_only 1
       (Lifespan.step Lifespan.failing Lifespan.maps_key_only 1
          (Lifespan.run Lifespan.failing Lifespan.maps_key_only [1; 1]%nat
                        (Lifespan.initial 2)))) = None /\
  Lifespan.lock (Lifespan.run Lifespan.lenient Lifespan.payment_key_only [0]%nat
                              (Lifespan.initial 2)) = Some 0%nat /\
  Lifespan.lock
    (Lifespan.step Lifespan.lenient Lifespan.payment_key_only 0
       (Lifespan.step Lifespan.lenient Lifespan.payment_key_only 0
          (Lifespan.run Lifespan.lenient Lifespan.payment_key_only [0]%nat
                        (Lifespan.initial 2)))) = None.
Proof.
  split; [ reflexivity | ]. split; [ | split; [ reflexivity | ] ].
  - apply (proj2 (lock_released_by_holder Lifespan.failing Lifespan.maps_key_only 2
                    [1; 1]%nat 1%nat eq_refl)).
  - apply (proj2 (lock_released_by_holder Lifespan.lenient Lifespan.payment_key_only 2
                    [0]%nat 0%nat eq_refl)).
Defined.

(** When the server can be constructed, at most one start-up fails, however
    the start-ups interleave: the one whose [connect] raised.  After the
    failure the server handle stays set, constructed once and connected
    once. *)
Theorem at_most_one_startup_fails :
  forall (ext : Lifespan.externals) (environ : gmap string string)
         (n : nat) (schedule : list nat) (srv : MCPServerStdio),
    Lifespan.new_maps_server ext environ = inr srv ->
    let s := Lifespan.run ext environ schedule (Lifespan.initial n) in
    forall i e,
      Lifespan.coroutines s !! i = Some (Lifespan.Failed e) ->
      (forall j e', Lifespan.coroutines s !! j = Some (Lifespan.Failed e') -> j = i) /\
      Lifespan.connect ext srv = inl e /\
      Lifespan.server s = Some srv /\
      Lifespan.constructed s = 1%nat /\ Lifespan.connects s = 1%nat.
Proof.
  intros ext environ n schedule srv Hnew s i e Hi.
  assert (Hinv : Lifespan.invariant ext environ s).
  { apply run_invariant, initial_invariant. }
  split.
  - intros j e' Hj. exact (Lifespan.inv_one_failure ext environ s Hinv srv Hnew j i e' e Hj Hi).
  - destruct (Lifespan.inv_failed ext environ s Hinv i e Hi)
      as [Hleft | (srv' & Hsrv' & Hconnect & Hone)]; [ congruence | ].
    pose proof (Lifespan.inv_server ext environ s Hinv srv' Hsrv') as Hsame.
    assert (srv' = srv) as -> by congruence.
    pose proof (Lifespan.inv_count ext environ s Hinv) as Hcount. rewrite Hsrv' in Hcount.
    auto.
Qed.

Lemma at_most_one_startup_fails_witness :
  Lifespan.new_maps_server Lifespan.failing Lifespan.maps_key_only =
    inr Lifespan.sample_server /\
  Lifespan.coroutines (Lifespan.run Lifespan.failing Lifespan.maps_key_only
                                    Lifespan.racing_schedule (Lifespan.initial 3)) =
    [Lifespan.Serving;
     Lifespan.Failed (PyException "McpError" "Connection closed");
     Lifespan.Serving] /\
  Lifespan.server (Lifespan.run Lifespan.failing Lifespan.maps_key_only
                                Lifespan.racing_schedule (Lifespan.initial 3)) =
    Some Lifespan.sample_server.
Proof.
  assert (Hnew : Lifespan.new_maps_server Lifespan.failing Lifespan.maps_key_only =
                 inr Lifespan.sample_server) by reflexivity.
  split; [ exact Hnew | ]. split; [ reflexivity | ].
  destruct (at_most_one_startup_fails Lifespan.failing Lifespan.maps_key_only 3
              Lifespan.racing_schedule Lifespan.sample_server Hnew 1%nat
              (PyException "McpError" "Connection closed") eq_refl) as (_ & _ & Hs & _).
  exact Hs.
Defined.

